(** * Semantic video search: the indexing and retrieval core

    A shallow embedding of [backend/video_search.py] (class
    [VideoSearchEngine]) and of the endpoints of [backend/server.py] that
    drive it, together with the properties of the specification that
    concern them and further properties of the code.

    Conventions of the embedding.
    - Python [int] is [Z]; Python [float] (and numpy [float32]) is the
      rational it denotes, [Q], with exact arithmetic.
    - A Python exception is a constructor of [exn]; a call that may raise
      returns a [result].  Methods that mutate [self] or the disk are
      state transformers that return the state reached even when they
      raise, as the interpreter leaves it.
    - OpenCV, Pillow, the sentence-transformer model and FAISS are not
      part of the repository.  The video decoder is the data it yields,
      files hold the value that was serialised into them, and the numeric
      kernels (encode, normalise, k-nearest-neighbour search) are the
      operations of a [Backend].
    - Line 32 of [video_search.py] reads [saved_count = 0VS]; the
      embedding takes the counter to start at [0]. *)

From Stdlib Require Import ZArith QArith Qround List String Ascii Lia Bool.
From Stdlib Require Import DecimalString DecimalN.
From stdpp Require Import gmap strings list fin_maps.

Open Scope Z_scope.

(** ** Exceptions and results *)

Inductive exn : Type :=
| ValueError
| IndexError
| KeyError
| TypeError
| ZeroDivisionError
| AssertionError
| FileNotFoundError
| PermissionError
| UnpicklingError
| UnidentifiedImageError
| RuntimeError
| AttributeError
| ProviderError.

Inductive result (A : Type) : Type :=
| Ok (a : A)
| Raise (e : exn).

Arguments Ok {A} a.
Arguments Raise {A} e.

Definition is_ok {A} (r : result A) : bool :=
  match r with Ok _ => true | Raise _ => false end.

(** ** Python built-ins used by the engine *)

Module Py.

(** [l[i]] for a list: negative positions count from the end, anything
    else out of range raises [IndexError]. *)
Definition getitem {A} (l : list A) (i : Z) : result A :=
  let n := Z.of_nat (length l) in
  let j := if i <? 0 then i + n else i in
  if (0 <=? j) && (j <? n) then
    match l !! Z.to_nat j with
    | Some x => Ok x
    | None => Raise IndexError
    end
  else Raise IndexError.

(** [int(x)] for a finite float: truncation towards zero. *)
Definition int (x : Q) : Z := Z.quot (Qnum x) (Z.pos (Qden x)).

(** [x / y] for a float [x] and an int [y]. *)
Definition truediv (x : Q) (y : Z) : result Q :=
  if y =? 0 then Raise ZeroDivisionError else Ok (x / inject_Z y)%Q.

(** [a % b] on ints: the sign of the result follows the divisor. *)
Definition mod_ (a b : Z) : result Z :=
  if b =? 0 then Raise ZeroDivisionError else Ok (a mod b).

Definition zeros (n : nat) : string :=
  string_of_list_ascii (repeat "0"%char n).

(** The format specification [:05d]. *)
Definition format_05d (z : Z) : string :=
  let digits := NilEmpty.string_of_uint (N.to_uint (Z.abs_N z)) in
  if z <? 0
  then "-" +:+ zeros (4 - String.length digits) +:+ digits
  else zeros (5 - String.length digits) +:+ digits.

Fixpoint last_char (s : string) : option ascii :=
  match s with
  | EmptyString => None
  | String c EmptyString => Some c
  | String _ rest => last_char rest
  end.

(** [os.path.join(a, b)] on POSIX, for a relative [b]. *)
Definition path_join (a b : string) : string :=
  match last_char a with
  | None => b
  | Some c => if Ascii.eqb c "/" then a +:+ b else a +:+ "/" +:+ b
  end.

End Py.

(** ** Data model *)

(** The dictionaries appended to [frames] in [extract_frames]. *)
Record FrameRecord : Type := {
  timestamp_ms : Q;
  timestamp_sec : Q;
  frame_path : string;
  frame_index : Z
}.

(** The dictionaries appended to [results] in [search]. *)
Record SearchResult : Type := {
  rank : Z;
  score : Q;
  res_timestamp_sec : Q;
  res_timestamp_ms : Q;
  res_frame_path : string;
  res_frame_index : Z
}.

Definition Image : Type := list Z.

(** A frame as [cap.read()] delivers it, with the value that
    [cap.get(cv2.CAP_PROP_POS_MSEC)] has right after the read. *)
Record DecodedFrame : Type := {
  pos_msec : Q;
  pixels : Image
}.

(** An opened [cv2.VideoCapture]: its native frame rate and the frames it
    will deliver, in decode order.  A source that cannot be opened reports
    rate [0] and delivers nothing. *)
Record VideoCapture : Type := {
  CAP_PROP_FPS : Q;
  stream : list DecodedFrame
}.

Definition vec : Type := list Q.

(** [faiss.IndexFlatIP]: the dimension and the stored rows. *)
Record Index : Type := {
  dim : Z;
  xb : list vec
}.

Definition ntotal (ix : Index) : Z := Z.of_nat (length (xb ix)).

(** What a file holds. *)
Inductive File : Type :=
| Jpeg (px : Image)
| Pickle (data : list (string * list FrameRecord))
| FaissIndex (ix : Index)
| Junk.

(** The disk: the files by path, and which paths can be opened for
    writing. *)
Record Disk : Type := {
  files : gmap string File;
  writable : string -> bool
}.

Definition write_file (p : string) (f : File) (dk : Disk) : Disk :=
  {| files := <[p := f]> (files dk); writable := writable dk |}.

(** The fields of a [VideoSearchEngine] that change. *)
Record Engine : Type := {
  index : option Index;
  frame_data : list FrameRecord;
  embedding_dim : Z
}.

(** [VideoSearchEngine.__init__] *)
Definition init : Engine :=
  {| index := None; frame_data := []; embedding_dim := 512 |}.

Definition set_frame_data (fd : list FrameRecord) (self : Engine) : Engine :=
  {| index := index self; frame_data := fd; embedding_dim := embedding_dim self |}.

Definition set_index (ix : option Index) (self : Engine) : Engine :=
  {| index := ix; frame_data := frame_data self; embedding_dim := embedding_dim self |}.

Record World : Type := {
  engine : Engine;
  disk : Disk
}.

(** ** Frame sampler: [extract_frames] *)

Definition frame_name (saved_count : Z) : string :=
  "frame_" +:+ Py.format_05d saved_count +:+ ".jpg".

Definition make_record (output_dir : string) (f : DecodedFrame) (saved_count : Z)
  : FrameRecord :=
  {| timestamp_ms := pos_msec f;
     timestamp_sec := (pos_msec f / 1000)%Q;
     frame_path := Py.path_join output_dir (frame_name saved_count);
     frame_index := saved_count |}.

(** [cv2.imwrite]: reports failure by its return value, which the caller
    drops, so an unwritable path leaves the disk as it is. *)
Definition imwrite (p : string) (px : Image) (dk : Disk) : Disk :=
  if writable dk p then write_file p (Jpeg px) dk else dk.

(** [frame_interval = int(video_fps / fps)] *)
Definition frame_interval (video_fps : Q) (fps : Z) : result Z :=
  match Py.truediv video_fps fps with
  | Ok q => Ok (Py.int q)
  | Raise e => Raise e
  end.

(** The [while True] loop: one iteration per frame the decoder delivers,
    ended by the read that returns [ret = False]. *)
Fixpoint read_loop (output_dir : string) (interval : Z) (st : list DecodedFrame)
    (frame_count saved_count : Z) (frames : list FrameRecord) (dk : Disk)
  : Disk * result (list FrameRecord) :=
  match st with
  | [] => (dk, Ok frames)
  | f :: rest =>
      match Py.mod_ frame_count interval with
      | Raise e => (dk, Raise e)
      | Ok r =>
          if r =? 0 then
            let rec := make_record output_dir f saved_count in
            read_loop output_dir interval rest (frame_count + 1) (saved_count + 1)
              (frames ++ [rec]) (imwrite (frame_path rec) (pixels f) dk)
          else
            read_loop output_dir interval rest (frame_count + 1) saved_count frames dk
      end
  end.

(** [extract_frames], with [cap] the capture opened on [video_path].
    Directories are not represented, so [Path(output_dir).mkdir(...)] has
    no counterpart: the model is of the calls in which it returns, the
    directory being there or having been created.  [cap.release()] and
    [print] leave no trace in the state. *)
Definition extract_frames (cap : VideoCapture) (output_dir : string) (fps : Z)
    (dk : Disk) : Disk * result (list FrameRecord) :=
  match frame_interval (CAP_PROP_FPS cap) fps with
  | Raise e => (dk, Raise e)
  | Ok interval => read_loop output_dir interval (stream cap) 0 0 [] dk
  end.

(** ** Control flow: results, and state with exceptions *)

#[export] Instance result_ret : MRet result := fun _ a => Ok a.
#[export] Instance result_bind : MBind result := fun _ _ k r =>
  match r with
  | Ok a => k a
  | Raise e => Raise e
  end.

(** A method of the engine: it runs on the engine's fields and the disk,
    and leaves the state it reached whether it returns or raises. *)
Definition M (A : Type) : Type := World -> World * result A.

#[export] Instance M_ret : MRet M := fun _ a w => (w, Ok a).
#[export] Instance M_bind : MBind M := fun _ _ k m w =>
  match m w with
  | (w', Ok a) => k a w'
  | (w', Raise e) => (w', Raise e)
  end.

Definition lift {A} (r : result A) : M A := fun w => (w, r).

Definition get_self : M Engine := fun w => (w, Ok (engine w)).

Definition modify_self (f : Engine -> Engine) : M unit :=
  fun w => ({| engine := f (engine w); disk := disk w |}, Ok tt).

Definition on_disk {A} (f : Disk -> Disk * result A) : M A :=
  fun w => let '(dk, r) := f (disk w) in ({| engine := engine w; disk := dk |}, r).

(** ** The external collaborators *)

(** The embedding model and the numeric kernels of the vector index.
    [encode_images] is [self.model.encode(images, ...)] followed by
    [astype('float32')]; [encode_text] is the same for [[query]], a
    one-row matrix; [normalize_L2] is [faiss.normalize_L2], returning the
    matrix it leaves in place; [index_search] is [index.search(x, k)],
    returning the score matrix and the label matrix. *)
Class Backend : Type := {
  encode_images : list Image -> result (list vec);
  encode_text : string -> result (list vec);
  normalize_L2 : list vec -> result (list vec);
  index_search : Index -> list vec -> Z -> result (list (list Q) * list (list Z))
}.

(** [faiss.IndexFlatIP(d)] *)
Definition IndexFlatIP (d : Z) : Index := {| dim := d; xb := [] |}.

(** [index.add(x)]: the wrapper asserts that the rows have the index's
    dimension, then appends them. *)
Definition index_add (ix : Index) (x : list vec) : result Index :=
  if forallb (fun row => Z.of_nat (length row) =? dim ix) x
  then Ok {| dim := dim ix; xb := xb ix ++ x |}
  else Raise AssertionError.

(** ** Index builder: [create_embeddings] and [build_index] *)

(** [Image.open(path)].  A [Jpeg px] file is the JPEG written from the
    pixels [px]; what the decoder makes of it stands for [px] here, and
    no statement below is about the pixel values read back. *)
Definition image_open (p : string) (dk : Disk) : result Image :=
  match files dk !! p with
  | None => Raise FileNotFoundError
  | Some (Jpeg px) => Ok px
  | Some _ => Raise UnidentifiedImageError
  end.

Fixpoint open_all (frames : list FrameRecord) (dk : Disk) : result (list Image) :=
  match frames with
  | [] => Ok []
  | f :: rest =>
      img ← image_open (frame_path f) dk;
      imgs ← open_all rest dk;
      Ok (img :: imgs)
  end.

Definition create_embeddings `{Backend} (frames : list FrameRecord) : M (list vec) :=
  fun w => (w, images ← open_all frames (disk w); encode_images images).

(** [self.index.add(embeddings)] on the index the engine holds. *)
Definition add_to_self_index (x : list vec) : M unit :=
  self ← get_self;
  match index self with
  | None => lift (Raise AttributeError)
  | Some ix =>
      ix' ← lift (index_add ix x);
      modify_self (set_index (Some ix'))
  end.

Definition build_index `{Backend} (cap : VideoCapture) (output_dir : string) (fps : Z)
  : M unit :=
  frames ← on_disk (extract_frames cap output_dir fps);
  _ ← modify_self (set_frame_data frames);
  self ← get_self;
  embeddings ← create_embeddings (frame_data self);
  _ ← modify_self (set_index (Some (IndexFlatIP (embedding_dim self))));
  embeddings ← lift (normalize_L2 embeddings);
  add_to_self_index embeddings.

(** ** Query engine: [search] *)

Definition make_result (i : Z) (sc : Q) (fr : FrameRecord) : SearchResult :=
  {| rank := i + 1;
     score := sc;
     res_timestamp_sec := timestamp_sec fr;
     res_timestamp_ms := timestamp_ms fr;
     res_frame_path := frame_path fr;
     res_frame_index := frame_index fr |}.

(** The [for i, (score, idx) in enumerate(zip(scores[0], indices[0]))]
    loop.  The four reads [self.frame_data[idx]] of one iteration meet the
    same list and position, so they are one [getitem]. *)
Fixpoint join_loop (fd : list FrameRecord) (i : Z) (hits : list (Q * Z))
    (results : list SearchResult) : result (list SearchResult) :=
  match hits with
  | [] => Ok results
  | (sc, idx) :: rest =>
      if idx <? Z.of_nat (length fd) then
        match Py.getitem fd idx with
        | Raise e => Raise e
        | Ok fr => join_loop fd (i + 1) rest (results ++ [make_result i sc fr])
        end
      else join_loop fd (i + 1) rest results
  end.

(** The hits of the first query row: [zip(scores[0], indices[0])]. *)
Definition first_row_hits (scores : list (list Q)) (indices : list (list Z))
  : result (list (Q * Z)) :=
  s0 ← Py.getitem scores 0;
  i0 ← Py.getitem indices 0;
  Ok (zip s0 i0).

(** The hits that [search] joins, or the exception raised before the
    join: no index, or a failure of the model or of the vector index. *)
Definition query_hits `{Backend} (self : Engine) (query : string) (top_k : Z)
  : result (list (Q * Z)) :=
  match index self with
  | None => Raise ValueError
  | Some ix =>
      query_embedding ← encode_text query;
      query_embedding ← normalize_L2 query_embedding;
      '(scores, indices) ← index_search ix query_embedding top_k;
      first_row_hits scores indices
  end.

Definition search `{Backend} (self : Engine) (query : string) (top_k : Z)
  : result (list SearchResult) :=
  hits ← query_hits self query top_k;
  join_loop (frame_data self) 0 hits [].

(** ** Persistence: [save] and [load] *)

Definition metadata_path (path : string) : string := path +:+ "_metadata.pkl".
Definition index_path (path : string) : string := path +:+ "_index.faiss".

(** [with open(p, 'wb') as f: pickle.dump(data, f)] *)
Definition pickle_dump_to (p : string) (data : list (string * list FrameRecord))
    (dk : Disk) : Disk * result unit :=
  if writable dk p then (write_file p (Pickle data) dk, Ok tt)
  else (dk, Raise PermissionError).

(** [faiss.write_index(index, p)].  The library opens [p] for writing
    before it looks at the index: a path that cannot be opened is left as
    it is, and with no index to serialise the call fails after the open,
    leaving at [p] a file that holds no index. *)
Definition write_index (ix : option Index) (p : string) (dk : Disk)
  : Disk * result unit :=
  if writable dk p then
    match ix with
    | Some ix => (write_file p (FaissIndex ix) dk, Ok tt)
    | None => (write_file p Junk dk, Raise RuntimeError)
    end
  else (dk, Raise RuntimeError).

Definition save (path : string) : M unit :=
  self ← get_self;
  let data := [("frame_data"%string, frame_data self)] in
  _ ← on_disk (pickle_dump_to (metadata_path path) data);
  on_disk (write_index (index self) (index_path path)).

(** [with open(p, 'rb') as f: data = pickle.load(f)] *)
Definition pickle_load_from (p : string) (dk : Disk)
  : result (list (string * list FrameRecord)) :=
  match files dk !! p with
  | None => Raise FileNotFoundError
  | Some (Pickle data) => Ok data
  | Some _ => Raise UnpicklingError
  end.

(** [data[key]] for a dictionary. *)
Fixpoint dict_get {V} (data : list (string * V)) (key : string) : result V :=
  match data with
  | [] => Raise KeyError
  | (k, v) :: rest => if String.eqb k key then Ok v else dict_get rest key
  end.

(** [faiss.read_index(p)] *)
Definition read_index (p : string) (dk : Disk) : result Index :=
  match files dk !! p with
  | Some (FaissIndex ix) => Ok ix
  | _ => Raise RuntimeError
  end.

Definition load (path : string) : M unit :=
  data ← on_disk (fun dk => (dk, pickle_load_from (metadata_path path) dk));
  fd ← lift (dict_get data "frame_data");
  _ ← modify_self (set_frame_data fd);
  ix ← on_disk (fun dk => (dk, read_index (index_path path) dk));
  modify_self (set_index (Some ix)).

(** ** The HTTP front end: [server.py]

    One request is served at a time.  The uploaded videos are kept apart
    from the files the engine writes, each as what a capture opened on it
    delivers; a path holds the engine's file when it has one, and the
    uploaded video otherwise.  Paths are compared as strings: [..] and
    links are not resolved.  Directories are not represented, so the two
    [os.makedirs] calls have no counterpart. *)

Abbreviation engine_search := search (only parsing).

Module Server.

Definition VIDEO_DIR : string := "uploads".
Definition FRAMES_DIR : string := "frames".
Definition INDEX_PATH : string := "video_index".

(** The global [engine] with the disk it works on, and the videos. *)
Record State : Type := {
  app : World;
  videos : gmap string VideoCapture
}.

(** The [detail] of an [HTTPException]: a literal, or [str(e)]. *)
Inductive Detail : Type :=
| Text (s : string)
| Str (e : exn).

(** How a request ends: the handler returns a body, raises an
    [HTTPException], or lets another exception escape to the framework. *)
Inductive Response (A : Type) : Type :=
| Respond (body : A)
| HTTPException (status_code : Z) (detail : Detail)
| Unhandled (e : exn).

Arguments Respond {A} body.
Arguments HTTPException {A} status_code detail.
Arguments Unhandled {A} e.

Record FileResponse : Type := {
  response_path : string;
  media_type : string
}.

Record Health : Type := {
  health_status : string;
  indexed : bool
}.

Record Uploaded : Type := {
  uploaded_filename : string;
  uploaded_path : string
}.

Record Indexed : Type := {
  index_status : string;
  frames : Z;
  video : string
}.

Record Found : Type := {
  query : string;
  results : list SearchResult
}.

(** [s.endswith(suffix)] *)
Definition endswith (s suffix : string) : bool :=
  let n := String.length s in
  let m := String.length suffix in
  (m <=? n)%nat && String.eqb (String.substring (n - m) m s) suffix.

(** [os.path.join(a, b)] on POSIX: an absolute [b] discards [a]. *)
Definition os_path_join (a b : string) : string :=
  match b with
  | String "/" _ => b
  | _ => Py.path_join a b
  end.

(** [os.path.exists(p)] *)
Definition path_exists (p : string) (s : State) : bool :=
  bool_decide (is_Some (files (disk (app s)) !! p))
  || bool_decide (is_Some (videos s !! p)).

(** [cv2.VideoCapture(p)]: what is not a video cannot be opened, and
    reports rate [0] and no frame. *)
Definition VideoCapture_open (p : string) (s : State) : VideoCapture :=
  match files (disk (app s)) !! p with
  | Some _ => {| CAP_PROP_FPS := 0; stream := [] |}
  | None => default {| CAP_PROP_FPS := 0; stream := [] |} (videos s !! p)
  end.

(** [with open(path, "wb") as f: shutil.copyfileobj(file.file, f)] on a
    path that can be written. *)
Definition store_video (p : string) (content : VideoCapture) (s : State) : State :=
  {| app := {| engine := engine (app s);
               disk := {| files := delete p (files (disk (app s)));
                          writable := writable (disk (app s)) |} |};
     videos := <[p := content]> (videos s) |}.

Definition with_app (w : World) (s : State) : State :=
  {| app := w; videos := videos s |}.

(** The state right after the module is loaded on a given disk:
    [engine = VideoSearchEngine()]. *)
Definition start (dk : Disk) (vs : gmap string VideoCapture) : State :=
  {| app := {| engine := init; disk := dk |}; videos := vs |}.

(** [GET /health] *)
Definition health (s : State) : Health :=
  {| health_status := "ok";
     indexed := match index (engine (app s)) with Some _ => true | None => false end |}.

(** [POST /upload] *)
Definition upload_video (filename : string) (content : VideoCapture) (s : State)
  : State * Response Uploaded :=
  if negb (endswith filename ".mp4" || endswith filename ".avi"
           || endswith filename ".mov" || endswith filename ".mkv")
  then (s, HTTPException 400 (Text "Invalid video format"))
  else
    let path := os_path_join VIDEO_DIR filename in
    if writable (disk (app s)) path
    then (store_video path content s,
          Respond {| uploaded_filename := filename; uploaded_path := path |})
    else (s, Unhandled PermissionError).

(** [POST /index] *)
Definition index_video `{Backend} (filename : string) (fps : Z) (s : State)
  : State * Response Indexed :=
  let video_path := os_path_join VIDEO_DIR filename in
  if negb (path_exists video_path s)
  then (s, HTTPException 404 (Text ("Video not found: " +:+ filename)))
  else
    match build_index (VideoCapture_open video_path s) FRAMES_DIR fps (app s) with
    | (w1, Raise e) => (with_app w1 s, HTTPException 500 (Str e))
    | (w1, Ok _) =>
        match save INDEX_PATH w1 with
        | (w2, Raise e) => (with_app w2 s, HTTPException 500 (Str e))
        | (w2, Ok _) =>
            (with_app w2 s,
             Respond {| index_status := "indexed";
                        frames := Z.of_nat (length (frame_data (engine w2)));
                        video := filename |})
        end
    end.

(** [GET /search]: a bare [except] around the lazy [load], nothing around
    [engine.search]. *)
Definition search `{Backend} (q : string) (top_k : Z) (s : State)
  : State * Response Found :=
  let '(w1, loaded) :=
    match index (engine (app s)) with
    | None => load INDEX_PATH (app s)
    | Some _ => (app s, Ok tt)
    end in
  match loaded with
  | Raise _ =>
      (with_app w1 s,
       HTTPException 400 (Text "No video indexed. Upload and index a video first."))
  | Ok _ =>
      match engine_search (engine w1) q top_k with
      | Ok rs => (with_app w1 s, Respond {| query := q; results := rs |})
      | Raise e => (with_app w1 s, Unhandled e)
      end
  end.

(** [GET /frame/{frame_index}] *)
Definition get_frame (frame_index : Z) (s : State) : Response FileResponse :=
  let frame_path := os_path_join FRAMES_DIR (frame_name frame_index) in
  if negb (path_exists frame_path s)
  then HTTPException 404 (Text "Frame not found")
  else Respond {| response_path := frame_path; media_type := "image/jpeg" |}.

(** [GET /video/{filename}] *)
Definition get_video (filename : string) (s : State) : Response FileResponse :=
  let video_path := os_path_join VIDEO_DIR filename in
  if negb (path_exists video_path s)
  then HTTPException 404 (Text "Video not found")
  else Respond {| response_path := video_path; media_type := "video/mp4" |}.

End Server.

(** ** Vocabulary of the statements *)

(** A list with the position of each element, counted from [n]. *)
Fixpoint enumerate_from {A} (n : Z) (l : list A) : list (Z * A) :=
  match l with
  | [] => []
  | x :: rest => (n, x) :: enumerate_from (n + 1) rest
  end.

(** The decoded frames whose zero-based decode position is a multiple of
    [interval], each with that position. *)
Definition retained (interval : Z) (st : list DecodedFrame) : list (Z * DecodedFrame) :=
  filter (fun p => p.1 mod interval = 0) (enumerate_from 0 st).

(** The records of a list of retained frames, numbered from [n]. *)
Definition records_from (output_dir : string) (n : Z) (l : list (Z * DecodedFrame))
  : list FrameRecord :=
  map (fun ip => make_record output_dir ip.2.2 ip.1) (enumerate_from n l).

(** The hits that the join keeps, each with its position in the answer of
    the vector index, counted from [i]. *)
Definition kept_hits (fd : list FrameRecord) (i : Z) (hits : list (Q * Z))
  : list (Z * (Q * Z)) :=
  filter (fun p => p.2.2 < Z.of_nat (length fd)) (enumerate_from i hits).

(** [r] is the result built for the hit [p.2] found at position [p.1]. *)
Definition joins (fd : list FrameRecord) (p : Z * (Q * Z)) (r : SearchResult) : Prop :=
  exists fr, Py.getitem fd p.2.2 = Ok fr /\ r = make_result p.1 p.2.1 fr.

Definition Qltb (a b : Q) : bool := negb (Qle_bool b a).

(** Descending score, equal scores by ascending row position. *)
Definition hit_before (h1 h2 : Q * Z) : bool :=
  Qltb h2.1 h1.1 || (Qeq_bool h1.1 h2.1 && (h1.2 <=? h2.2)).

(** Descending score, equal scores by ascending [frame_index]. *)
Definition ranked_before (r1 r2 : SearchResult) : bool :=
  hit_before (score r1, res_frame_index r1) (score r2, res_frame_index r2).

(** Every element stands in [before] to every later one. *)
Fixpoint sorted_by {A} (before : A -> A -> bool) (l : list A) : bool :=
  match l with
  | [] => true
  | x :: rest => forallb (before x) rest && sorted_by before rest
  end.

(** The table is dense: row [i] holds [frame_index = i]. *)
Definition dense (fd : list FrameRecord) : Prop :=
  map frame_index fd = seqZ 0 (Z.of_nat (length fd)).

(** ** A small exact backend

    Closed examples need a concrete model and a concrete vector index.
    This one works in exact arithmetic: a text is embedded by its length
    and an image by its first pixel, as an axis vector of dimension 512;
    rows are accepted by [normalize] only when their norm is 0 or 1, which
    normalisation leaves as they are; [search_rows] is a flat
    inner-product search that answers [k] labels per query, the best
    first, and, as [faiss.IndexFlatIP] does, fills what is missing with
    label [-1] and the lowest [float32].  The order among equal scores is
    not fixed by the capability; this index reports the higher row
    first. *)
Module Demo.

Definition FLT_LOWEST : Q := (-340282346638528859811704183484516925440)%Q.

Definition axis (k : nat) : vec :=
  repeat 0%Q (k mod 512) ++ [1%Q] ++ repeat 0%Q (511 - k mod 512).

Fixpoint ip (u v : vec) : Q :=
  match u, v with
  | a :: u', b :: v' => (a * b + ip u' v')%Q
  | _, _ => 0%Q
  end.

(** [hit_above h1 h2]: [h1] is reported before [h2]. *)
Definition hit_above (h1 h2 : Q * Z) : bool :=
  match (h1.1 ?= h2.1)%Q with
  | Gt => true
  | Lt => false
  | Eq => h2.2 <? h1.2
  end.

Fixpoint insert_hit (h : Q * Z) (l : list (Q * Z)) : list (Q * Z) :=
  match l with
  | [] => [h]
  | x :: rest => if hit_above h x then h :: l else x :: insert_hit h rest
  end.

Definition knn (rows : list vec) (q : vec) (k : nat) : list (Q * Z) :=
  let scored := map (fun p => (Qred (ip q p.2), p.1)) (enumerate_from 0 rows) in
  let best := take k (foldr insert_hit [] scored) in
  best ++ repeat (FLT_LOWEST, -1) (k - length best).

Definition has_dim (d : Z) (row : vec) : bool := Z.of_nat (length row) =? d.

Definition search_rows (ix : Index) (x : list vec) (k : Z)
  : result (list (list Q) * list (list Z)) :=
  if (k <=? 0) || negb (forallb (has_dim (dim ix)) x) then Raise AssertionError
  else
    let answers := map (fun q => knn (xb ix) q (Z.to_nat k)) x in
    Ok (map (map fst) answers, map (map snd) answers).

Definition unit_or_zero (row : vec) : bool :=
  Qeq_bool (ip row row) 1 || Qeq_bool (ip row row) 0.

Definition normalize (x : list vec) : result (list vec) :=
  if forallb unit_or_zero x then Ok x else Raise ProviderError.

Definition embed_image (px : Image) : vec := axis (Z.to_nat (hd 0 px)).

Definition embed_text (s : string) : vec := axis (String.length s).

(** A backend that answers. *)
Definition flat : Backend :=
  {| encode_images := fun imgs => Ok (map embed_image imgs);
     encode_text := fun s => Ok [embed_text s];
     normalize_L2 := normalize;
     index_search := search_rows |}.

(** A backend whose image encoder is down. *)
Definition failing : Backend :=
  {| encode_images := fun _ => Raise ProviderError;
     encode_text := fun s => Ok [embed_text s];
     normalize_L2 := normalize;
     index_search := search_rows |}.

Definition blank_disk : Disk := {| files := ∅; writable := fun _ => true |}.

(** A decoder that delivers [n] frames, one every [step] milliseconds;
    frame [i] shows pixel value [i]. *)
Definition clip (native_fps : Q) (step : Z) (n : nat) : VideoCapture :=
  {| CAP_PROP_FPS := native_fps;
     stream := map (fun i => {| pos_msec := inject_Z (step * i); pixels := [i] |})
                   (seqZ 0 (Z.of_nat n)) |}.

(** The table of [n] frames sampled one per second into [frames/]. *)
Definition table (n : nat) : list FrameRecord :=
  records_from "frames" 0 (enumerate_from 0 (stream (clip 1 1000 n))).

(** An engine holding [rows] and the table of [n] frames. *)
Definition engine_with (rows : list vec) (n : nat) : Engine :=
  {| index := Some {| dim := 512; xb := rows |};
     frame_data := table n;
     embedding_dim := 512 |}.

(** The same flat search with another order among equal scores: the
    lower row first. *)
Definition hit_above_low (h1 h2 : Q * Z) : bool :=
  match (h1.1 ?= h2.1)%Q with
  | Gt => true
  | Lt => false
  | Eq => h1.2 <? h2.2
  end.

Fixpoint insert_hit_low (h : Q * Z) (l : list (Q * Z)) : list (Q * Z) :=
  match l with
  | [] => [h]
  | x :: rest => if hit_above_low h x then h :: l else x :: insert_hit_low h rest
  end.

Definition knn_low (rows : list vec) (q : vec) (k : nat) : list (Q * Z) :=
  let scored := map (fun p => (Qred (ip q p.2), p.1)) (enumerate_from 0 rows) in
  let best := take k (foldr insert_hit_low [] scored) in
  best ++ repeat (FLT_LOWEST, -1) (k - length best).

Definition search_rows_low (ix : Index) (x : list vec) (k : Z)
  : result (list (list Q) * list (list Z)) :=
  if (k <=? 0) || negb (forallb (has_dim (dim ix)) x) then Raise AssertionError
  else
    let answers := map (fun q => knn_low (xb ix) q (Z.to_nat k)) x in
    Ok (map (map fst) answers, map (map snd) answers).

Definition flat_low_first : Backend :=
  {| encode_images := fun imgs => Ok (map embed_image imgs);
     encode_text := fun s => Ok [embed_text s];
     normalize_L2 := normalize;
     index_search := search_rows_low |}.

(** A disk on which one path cannot be opened for writing. *)
Definition read_only_at (p : string) (fs : gmap string File) : Disk :=
  {| files := fs; writable := fun q => negb (String.eqb q p) |}.

End Demo.

(** * The frame sampler *)

Section Sampler.

Lemma enumerate_from_length {A} (l : list A) n :
  length (enumerate_from n l) = length l.
Proof. revert n; induction l as [|x l IH]; intros n; simpl; [done|]. by rewrite IH. Qed.

Lemma enumerate_from_fst {A} (l : list A) n :
  map fst (enumerate_from n l) = seqZ n (Z.of_nat (length l)).
Proof.
  revert n; induction l as [|x l IH]; intros n; [done|].
  cbn [enumerate_from map length fst]. rewrite IH.
  rewrite (seqZ_cons n) by lia. do 2 f_equal; lia.
Qed.

Lemma records_from_index out n l :
  map frame_index (records_from out n l) = seqZ n (Z.of_nat (length l)).
Proof.
  unfold records_from. rewrite <- enumerate_from_fst, map_map. done.
Qed.

(** The loop, from any iteration on: the frames still to be read
    contribute the records of those at multiples of the interval. *)
Lemma read_loop_spec out interval st : interval <> 0 ->
  forall fc sc acc dk,
    snd (read_loop out interval st fc sc acc dk)
    = Ok (acc ++ records_from out sc
                   (filter (fun p => p.1 mod interval = 0) (enumerate_from fc st))).
Proof.
  intros Hne. induction st as [|f st IH]; intros fc sc acc dk.
  - simpl. unfold records_from. simpl. by rewrite app_nil_r.
  - cbn [read_loop enumerate_from]. unfold Py.mod_.
    destruct (Z.eqb_spec interval 0) as [|_]; [done|].
    rewrite filter_cons. cbn [fst].
    destruct (Z.eqb_spec (fc mod interval) 0) as [Hm|Hm].
    + rewrite decide_True by done. rewrite IH.
      unfold records_from. cbn [enumerate_from map fst snd].
      by rewrite <- app_assoc.
    + rewrite decide_False by done. apply IH.
Qed.

Lemma int_nonneg_floor (q : Q) : (0 <= q)%Q -> Py.int q = Qfloor q.
Proof.
  destruct q as [n d]. unfold Qle, Py.int, Qfloor. simpl. intros Hn.
  apply Z.quot_div_nonneg; lia.
Qed.

Lemma ratio_ge_1 (native : Q) (fps : Z) :
  0 < fps -> (inject_Z fps <= native)%Q -> (1 <= native / inject_Z fps)%Q.
Proof.
  intros Hpos Hle. apply Qle_shift_div_l.
  - change 0%Q with (inject_Z 0). rewrite <- Zlt_Qlt. done.
  - by rewrite Qmult_1_l.
Qed.

Lemma frame_interval_floor (native : Q) (fps : Z) :
  0 < fps -> (inject_Z fps <= native)%Q ->
  frame_interval native fps = Ok (Qfloor (native / inject_Z fps))
  /\ 1 <= Qfloor (native / inject_Z fps).
Proof.
  intros Hpos Hle. pose proof (ratio_ge_1 native fps Hpos Hle) as H1.
  unfold frame_interval, Py.truediv.
  destruct (Z.eqb_spec fps 0) as [?|_]; [lia|]. split.
  - f_equal. apply int_nonneg_floor. eapply Qle_trans; [|exact H1]. done.
  - change 1 with (Qfloor 1). by apply Qfloor_resp_le.
Qed.

End Sampler.

(** C5, as amended.  When the requested rate is positive and does not
    exceed the native rate, the sampling interval is
    [max(1, floor(native_fps / target_fps))], the sampler returns, the
    frames it retains are exactly those at decode positions that are
    multiples of the interval, in order, and their [frame_index] values
    are [0 .. N-1]. *)
Theorem extract_frames_sampling (cap : VideoCapture) (output_dir : string) (fps : Z)
    (dk : Disk) :
  0 < fps -> (inject_Z fps <= CAP_PROP_FPS cap)%Q ->
  let interval := Z.max 1 (Qfloor (CAP_PROP_FPS cap / inject_Z fps)) in
  let kept := retained interval (stream cap) in
  frame_interval (CAP_PROP_FPS cap) fps = Ok interval
  /\ snd (extract_frames cap output_dir fps dk) = Ok (records_from output_dir 0 kept)
  /\ map frame_index (records_from output_dir 0 kept) = seqZ 0 (Z.of_nat (length kept)).
Proof.
  intros Hpos Hle interval kept.
  destruct (frame_interval_floor _ _ Hpos Hle) as [Hfi H1].
  assert (Hmax : interval = Qfloor (CAP_PROP_FPS cap / inject_Z fps))
    by (unfold interval; lia).
  split; [by rewrite Hmax|]. split; [|apply records_from_index].
  unfold extract_frames. rewrite Hfi, <- Hmax.
  rewrite read_loop_spec by lia. done.
Qed.

(** A 30 fps source of four frames sampled at 15 fps: positions 0 and 2. *)
Lemma extract_frames_sampling_witness :
  0 < 15 /\ (inject_Z 15 <= 30)%Q
  /\ frame_interval 30 15 = Ok 2
  /\ map frame_index
       (records_from "frames" 0
          (retained 2 (map (fun t => {| pos_msec := t; pixels := [] |})
                           [0; 33; 67; 100]%Q)))
     = [0; 1].
Proof.
  pose proof (extract_frames_sampling
    {| CAP_PROP_FPS := 30;
       stream := map (fun t => {| pos_msec := t; pixels := [] |}) [0; 33; 67; 100]%Q |}
    "frames" 15 {| files := ∅; writable := fun _ => true |}) as H.
  cbn zeta in H. cbn [CAP_PROP_FPS stream] in H.
  assert (Hp : 0 < 15) by lia.
  assert (Hq : (inject_Z 15 <= 30)%Q) by (vm_compute; discriminate).
  destruct (H Hp Hq) as (Hi & _ & Hx).
  split; [exact Hp|]. split; [exact Hq|]. split; [exact Hi|exact Hx].
Defined.

(** C5, as stated, fails when the requested rate exceeds the native rate:
    a 1 fps source sampled at 2 fps gets interval [0], not
    [max(1, floor(1/2)) = 1], and the first frame read raises. *)
Lemma sampling_interval_not_clamped :
  0 < 2
  /\ frame_interval 1 2 = Ok 0
  /\ frame_interval 1 2 <> Ok (Z.max 1 (Qfloor (1 / inject_Z 2)))
  /\ snd (extract_frames
            {| CAP_PROP_FPS := 1; stream := [ {| pos_msec := 0; pixels := [] |} ] |}
            "frames" 2 {| files := ∅; writable := fun _ => true |})
     = Raise ZeroDivisionError.
Proof.
  split; [lia|]. split; [reflexivity|]. split; [|reflexivity].
  vm_compute. discriminate.
Qed.


(** * The query engine *)

Section Query.

Context `{B : Backend}.

Lemma join_loop_inv fd hits : forall i acc results,
  join_loop fd i hits acc = Ok results ->
  exists new, results = acc ++ new /\ Forall2 (joins fd) (kept_hits fd i hits) new.
Proof.
  induction hits as [|[sc idx] hits IH]; intros i acc results Hrun.
  - injection Hrun as <-. exists []. rewrite app_nil_r. split; [done|constructor].
  - cbn [join_loop] in Hrun. unfold kept_hits. cbn [enumerate_from].
    rewrite filter_cons. cbn [snd].
    destruct (Z.ltb_spec idx (Z.of_nat (length fd))) as [Hlt|Hge].
    + destruct (Py.getitem fd idx) as [fr|e] eqn:Hget; [|discriminate].
      apply IH in Hrun as (new & -> & Hnew).
      exists (make_result i sc fr :: new). rewrite <- app_assoc. split; [done|].
      rewrite decide_True by done. constructor; [|exact Hnew].
      exists fr. done.
    + apply IH in Hrun as (new & -> & Hnew).
      exists new. split; [done|]. rewrite decide_False by lia. exact Hnew.
Qed.

Lemma search_inv self query top_k hits results :
  query_hits self query top_k = Ok hits ->
  search self query top_k = Ok results ->
  Forall2 (joins (frame_data self)) (kept_hits (frame_data self) 0 hits) results.
Proof.
  intros Hq Hs. unfold search in Hs. rewrite Hq in Hs. cbn in Hs.
  apply join_loop_inv in Hs as (new & -> & Hnew). exact Hnew.
Qed.

Lemma joined_rank fd l new :
  Forall2 (joins fd) l new -> map rank new = map (fun p => p.1 + 1) l.
Proof.
  induction 1 as [|p r l new (fr & _ & ->) _ IH]; [done|].
  cbn [map]. by rewrite IH.
Qed.

Lemma joined_score fd l new :
  Forall2 (joins fd) l new -> map score new = map (fun p => p.2.1) l.
Proof.
  induction 1 as [|p r l new (fr & _ & ->) _ IH]; [done|].
  cbn [map]. by rewrite IH.
Qed.

Lemma kept_hits_snd fd i hits :
  map snd (kept_hits fd i hits)
  = filter (fun h => h.2 < Z.of_nat (length fd)) hits.
Proof.
  unfold kept_hits. revert i.
  induction hits as [|h hits IH]; intros i; [done|].
  cbn [enumerate_from]. rewrite !filter_cons. cbn [snd].
  destruct (decide (h.2 < Z.of_nat (length fd))); cbn [map snd]; by rewrite IH.
Qed.

Lemma kept_hits_all fd i hits :
  forallb (fun h => h.2 <? Z.of_nat (length fd)) hits = true ->
  kept_hits fd i hits = enumerate_from i hits.
Proof.
  unfold kept_hits. revert i.
  induction hits as [|h hits IH]; intros i; [done|].
  cbn [forallb enumerate_from]. rewrite andb_true_iff, Z.ltb_lt. intros [Hh Hall].
  rewrite filter_cons. cbn [snd]. rewrite decide_True by done. by rewrite IH.
Qed.

Lemma enumerate_from_succ {A} (l : list A) n :
  map (fun p => p.1 + 1) (enumerate_from n l) = seqZ (n + 1) (Z.of_nat (length l)).
Proof.
  revert n; induction l as [|x l IH]; intros n; [done|].
  cbn [enumerate_from map length fst]. rewrite IH.
  rewrite (seqZ_cons (n + 1)) by lia. do 2 f_equal; lia.
Qed.

Lemma getitem_nonneg {A} (l : list A) i x :
  Py.getitem l i = Ok x -> 0 <= i -> l !! Z.to_nat i = Some x.
Proof.
  unfold Py.getitem. intros Hget Hi.
  destruct (Z.ltb_spec i 0) as [?|_]; [lia|].
  destruct (_ && _); [|discriminate].
  destruct (l !! Z.to_nat i); [|discriminate]. congruence.
Qed.

Lemma dense_lookup fd n fr :
  dense fd -> fd !! n = Some fr -> frame_index fr = Z.of_nat n.
Proof.
  unfold dense. intros Hd Hn.
  assert (Hm : (frame_index <$> fd) !! n = Some (frame_index fr))
    by (by rewrite list_lookup_fmap, Hn).
  change (frame_index <$> fd) with (map frame_index fd) in Hm.
  rewrite Hd in Hm. apply lookup_seqZ in Hm as [-> _]. lia.
Qed.

(** On a dense table, a result built from labels that are not negative
    carries the score and the row position of its hit. *)
Lemma joined_fields fd l new :
  dense fd -> Forall (fun p => 0 <= p.2.2) l -> Forall2 (joins fd) l new ->
  map (fun r => (score r, res_frame_index r)) new = map snd l.
Proof.
  intros Hd Hpos HF. induction HF as [|p r l new (fr & Hget & ->) _ IH]; [done|].
  apply Forall_cons in Hpos as [Hp Hpos].
  cbn [map]. rewrite IH by done. f_equal.
  apply getitem_nonneg in Hget; [|done].
  apply (dense_lookup _ _ _ Hd) in Hget.
  destruct p as [i [sc idx]]. cbn in *. f_equal. lia.
Qed.

Lemma sorted_by_map {A C} (f : A -> C) (before : C -> C -> bool) l :
  sorted_by before (map f l) = sorted_by (fun x y => before (f x) (f y)) l.
Proof.
  induction l as [|x l IH]; [done|]. cbn [map sorted_by]. rewrite IH. f_equal.
  clear IH. induction l as [|y l IH]; [done|]. cbn [map forallb]. by rewrite IH.
Qed.

Lemma forallb_filter {A} (f : A -> bool) (P : A -> Prop) `{!forall x, Decision (P x)} l :
  forallb f l = true -> forallb f (filter P l) = true.
Proof.
  rewrite !forallb_forall. intros Hall x Hx. apply Hall.
  apply list_elem_of_In. apply list_elem_of_In in Hx.
  apply list_elem_of_filter in Hx. tauto.
Qed.

Lemma sorted_by_filter {A} (before : A -> A -> bool) (P : A -> Prop)
    `{!forall x, Decision (P x)} l :
  sorted_by before l = true -> sorted_by before (filter P l) = true.
Proof.
  induction l as [|x l IH]; [done|]. cbn [sorted_by].
  rewrite andb_true_iff. intros [Hx Hl]. rewrite filter_cons.
  destruct (decide (P x)); [|by apply IH].
  cbn [sorted_by]. rewrite andb_true_iff. split; [by apply forallb_filter|by apply IH].
Qed.

Lemma kept_hits_nonneg fd i hits :
  forallb (fun h => 0 <=? h.2) hits = true ->
  Forall (fun p => 0 <= p.2.2) (kept_hits fd i hits).
Proof.
  unfold kept_hits. revert i.
  induction hits as [|h hits IH]; intros i; [constructor|].
  cbn [forallb enumerate_from]. rewrite andb_true_iff, Z.leb_le. intros [Hh Hall].
  rewrite filter_cons. destruct (decide _); [constructor; [done|]|]; by apply IH.
Qed.

End Query.

(** C7, as amended.  [search] does not order anything: the results keep
    the order in which the vector index reported its hits.  The i-th
    result is the one built from the i-th hit that the join keeps (that
    hit's score, its position in the answer, and the record at its
    label), so the scores of the results are the scores of the kept hits
    in that order; on a dense table and an answer without negative
    labels, the (score, frame_index) pairs of the results are exactly the
    kept hits, in order.  The results are therefore in descending score
    order with equal scores by ascending [frame_index] whenever the
    answer of the index is in descending score order with equal scores by
    ascending row position. *)
Theorem search_keeps_index_order `{B : Backend} (self : Engine) (query : string)
    (top_k : Z) (hits : list (Q * Z)) (results : list SearchResult) :
  query_hits self query top_k = Ok hits ->
  search self query top_k = Ok results ->
  Forall2 (joins (frame_data self)) (kept_hits (frame_data self) 0 hits) results
  /\ map score results
     = map fst (filter (fun h => h.2 < Z.of_nat (length (frame_data self))) hits)
  /\ (dense (frame_data self) ->
      forallb (fun h => 0 <=? h.2) hits = true ->
      map (fun r => (score r, res_frame_index r)) results
      = filter (fun h => h.2 < Z.of_nat (length (frame_data self))) hits
      /\ (sorted_by hit_before hits = true ->
          sorted_by ranked_before results = true)).
Proof.
  intros Hq Hs. pose proof (search_inv _ _ _ _ _ Hq Hs) as HF.
  split; [exact HF|]. split.
  - rewrite (joined_score _ _ _ HF), <- (kept_hits_snd _ 0), map_map. done.
  - intros Hd Hpos.
    assert (Hpairs : map (fun r => (score r, res_frame_index r)) results
                     = filter (fun h => h.2 < Z.of_nat (length (frame_data self))) hits).
    { rewrite (joined_fields _ _ _ Hd (kept_hits_nonneg _ _ _ Hpos) HF).
      apply kept_hits_snd. }
    split; [exact Hpairs|]. intros Hsorted.
    change (sorted_by ranked_before results)
      with (sorted_by (fun x y => hit_before ((fun r => (score r, res_frame_index r)) x)
                                             ((fun r => (score r, res_frame_index r)) y))
                      results).
    rewrite <- sorted_by_map, Hpairs. by apply sorted_by_filter.
Qed.

(** Two frames with the same embedding under an index that reports equal
    scores lower row first: the tie comes back in that order. *)
Lemma search_keeps_index_order_witness :
  exists hits results,
    @query_hits Demo.flat_low_first (Demo.engine_with [Demo.axis 1; Demo.axis 1] 2) "a" 2
    = Ok hits
    /\ @search Demo.flat_low_first (Demo.engine_with [Demo.axis 1; Demo.axis 1] 2) "a" 2
       = Ok results
    /\ dense (Demo.table 2)
    /\ forallb (fun h => 0 <=? h.2) hits = true
    /\ sorted_by hit_before hits = true
    /\ map (fun r => (score r, res_frame_index r)) results = [(1%Q, 0); (1%Q, 1)]
    /\ sorted_by ranked_before results = true.
Proof.
  eexists. eexists.
  assert (Hq : @query_hits Demo.flat_low_first
                 (Demo.engine_with [Demo.axis 1; Demo.axis 1] 2) "a" 2
               = Ok [(1%Q, 0); (1%Q, 1)]) by (vm_compute; reflexivity).
  split; [exact Hq|].
  assert (Hs : @search Demo.flat_low_first
                 (Demo.engine_with [Demo.axis 1; Demo.axis 1] 2) "a" 2
               = Ok [make_result 0 1 (make_record "frames" {| pos_msec := 0; pixels := [0] |} 0);
                     make_result 1 1 (make_record "frames" {| pos_msec := 1000; pixels := [1] |} 1)])
    by (vm_compute; reflexivity).
  split; [exact Hs|].
  assert (Hd : dense (Demo.table 2)) by reflexivity.
  assert (Hp : forallb (fun h : Q * Z => 0 <=? h.2) [(1%Q, 0); (1%Q, 1)] = true) by reflexivity.
  assert (Ho : sorted_by hit_before [(1%Q, 0); (1%Q, 1)] = true) by reflexivity.
  split; [exact Hd|]. split; [exact Hp|]. split; [exact Ho|].
  destruct (proj2 (proj2 (search_keeps_index_order _ _ _ _ _ Hq Hs)) Hd Hp)
    as [Hpairs Hsorted].
  split; [exact Hpairs|exact (Hsorted Ho)].
Defined.

(** C7, as stated, fails: two frames with the same embedding tie, the
    index reports row 1 before row 0, and [search] returns them so. *)
Lemma tie_not_by_frame_index :
  exists results,
    @query_hits Demo.flat (Demo.engine_with [Demo.axis 1; Demo.axis 1] 2) "a" 2
    = Ok [(1%Q, 1); (1%Q, 0)]
    /\ @search Demo.flat (Demo.engine_with [Demo.axis 1; Demo.axis 1] 2) "a" 2 = Ok results
    /\ map score results = [1%Q; 1%Q]
    /\ map res_frame_index results = [1; 0]
    /\ sorted_by ranked_before results = false.
Proof.
  eexists. split; [vm_compute; reflexivity|].
  split; [reflexivity|]. repeat split; vm_compute; reflexivity.
Qed.

(** C8, as amended.  The rank of a result is one more than the position
    of its hit in the answer of the vector index, before the join; the
    ranks are [1 .. n] when the join drops no hit. *)
Theorem rank_is_hit_position `{B : Backend} (self : Engine) (query : string)
    (top_k : Z) (hits : list (Q * Z)) (results : list SearchResult) :
  query_hits self query top_k = Ok hits ->
  search self query top_k = Ok results ->
  map rank results = map (fun p => p.1 + 1) (kept_hits (frame_data self) 0 hits)
  /\ (forallb (fun h => h.2 <? Z.of_nat (length (frame_data self))) hits = true ->
      map rank results = seqZ 1 (Z.of_nat (length results))).
Proof.
  intros Hq Hs. pose proof (search_inv _ _ _ _ _ Hq Hs) as HF.
  pose proof (joined_rank _ _ _ HF) as Hr. split; [exact Hr|].
  intros Hall. rewrite Hr. apply Forall2_length in HF. rewrite <- HF.
  rewrite (kept_hits_all _ _ _ Hall), enumerate_from_succ, enumerate_from_length.
  done.
Qed.

(** An index of two rows over a table of two frames: nothing is dropped. *)
Lemma rank_is_hit_position_witness :
  exists hits results,
    @query_hits Demo.flat (Demo.engine_with [Demo.axis 1; Demo.axis 2] 2) "a" 2 = Ok hits
    /\ @search Demo.flat (Demo.engine_with [Demo.axis 1; Demo.axis 2] 2) "a" 2 = Ok results
    /\ forallb (fun h => h.2 <? Z.of_nat (length (Demo.table 2))) hits = true
    /\ map rank results = seqZ 1 (Z.of_nat (length results)).
Proof.
  eexists. eexists.
  assert (Hq : @query_hits Demo.flat (Demo.engine_with [Demo.axis 1; Demo.axis 2] 2) "a" 2
               = Ok [(1%Q, 0); (0%Q, 1)]) by (vm_compute; reflexivity).
  split; [exact Hq|].
  assert (Hs : @search Demo.flat (Demo.engine_with [Demo.axis 1; Demo.axis 2] 2) "a" 2
               = Ok [make_result 0 1 (make_record "frames" {| pos_msec := 0; pixels := [0] |} 0);
                     make_result 1 0 (make_record "frames" {| pos_msec := 1000; pixels := [1] |} 1)])
    by (vm_compute; reflexivity).
  split; [exact Hs|].
  assert (Hall : forallb (fun h : Q * Z => h.2 <? Z.of_nat (length (Demo.table 2)))
                   [(1%Q, 0); (0%Q, 1)] = true) by reflexivity.
  split; [exact Hall|].
  exact (proj2 (rank_is_hit_position _ _ _ _ _ Hq Hs) Hall).
Defined.

(** C8, as stated, fails: over a table of one frame, an index of two rows
    answers row 1 first; that hit is dropped and the only result returned
    has rank 2. *)
Lemma rank_gap_after_drop :
  exists results,
    @query_hits Demo.flat (Demo.engine_with [Demo.axis 2; Demo.axis 1] 1) "a" 2
    = Ok [(1%Q, 1); (0%Q, 0)]
    /\ @search Demo.flat (Demo.engine_with [Demo.axis 2; Demo.axis 1] 1) "a" 2 = Ok results
    /\ map rank results = [2]
    /\ map res_frame_index results = [0].
Proof.
  eexists. split; [vm_compute; reflexivity|].
  split; [reflexivity|]. split; vm_compute; reflexivity.
Qed.

(** C6 at its failing input.  Over one indexed frame, [top_k = 2] makes
    the index fill its answer with label [-1]; [-1 < 1] passes the guard
    and [frame_data[-1]] is the last record, so a second result is built
    from a row position outside [[0, 1)].  Over an empty table the same
    hit raises [IndexError]. *)
Theorem negative_label_passes_guard :
  @query_hits Demo.flat (Demo.engine_with [Demo.axis 1] 1) "a" 2
  = Ok [(1%Q, 0); (Demo.FLT_LOWEST, -1)]
  /\ (exists results,
        @search Demo.flat (Demo.engine_with [Demo.axis 1] 1) "a" 2 = Ok results
        /\ map rank results = [1; 2]
        /\ map score results = [1%Q; Demo.FLT_LOWEST]
        /\ map res_frame_index results = [0; 0])
  /\ @query_hits Demo.flat (Demo.engine_with [] 0) "a" 1 = Ok [(Demo.FLT_LOWEST, -1)]
  /\ @search Demo.flat (Demo.engine_with [] 0) "a" 1 = Raise IndexError.
Proof.
  split; [vm_compute; reflexivity|]. split.
  - eexists. split; [reflexivity|]. repeat split; vm_compute; reflexivity.
  - split; vm_compute; reflexivity.
Qed.

(** C4 at its failing input.  Two frames are indexed and [top_k = 5]: the
    answer of the index has five entries, three of them fillers, and
    [search] returns five results instead of two. *)
Theorem top_k_beyond_count_not_clamped :
  ntotal {| dim := 512; xb := [Demo.axis 1; Demo.axis 2] |} = 2
  /\ length (Demo.table 2) = 2%nat
  /\ exists results,
       @search Demo.flat (Demo.engine_with [Demo.axis 1; Demo.axis 2] 2) "a" 5 = Ok results
       /\ length results = 5%nat
       /\ map res_frame_index results = [0; 1; 1; 1; 1].
Proof.
  split; [reflexivity|]. split; [reflexivity|].
  eexists. split; [reflexivity|]. split; vm_compute; reflexivity.
Qed.

(** * The index builder *)

(** C2, as amended.  When the image-encode step raises, the build aborts
    with that exception and the vector index is left as it was; the
    frame-metadata table, however, has already been replaced by the
    newly sampled frames (and their images are on disk). *)
Theorem build_failure_keeps_index `{B : Backend} (cap : VideoCapture)
    (output_dir : string) (fps : Z) (w : World) (dk' : Disk)
    (frames : list FrameRecord) (images : list Image) (e : exn) :
  extract_frames cap output_dir fps (disk w) = (dk', Ok frames) ->
  open_all frames dk' = Ok images ->
  encode_images images = Raise e ->
  build_index cap output_dir fps w
  = ({| engine := {| index := index (engine w);
                     frame_data := frames;
                     embedding_dim := embedding_dim (engine w) |};
        disk := dk' |},
     Raise e).
Proof.
  intros Hx Ho He.
  unfold build_index, mbind, M_bind, on_disk, modify_self, get_self, create_embeddings.
  rewrite Hx. cbn. rewrite Ho. cbn. rewrite He. reflexivity.
Qed.

Lemma build_failure_keeps_index_witness :
  let w := {| engine := Demo.engine_with [Demo.axis 0; Demo.axis 1] 2;
              disk := Demo.blank_disk |} in
  let built := @build_index Demo.failing (Demo.clip 1 1000 1) "frames" 1 w in
  snd built = Raise ProviderError
  /\ index (engine (fst built)) = index (engine w)
  /\ frame_data (engine (fst built)) = Demo.table 1.
Proof.
  intros w built.
  assert (Hx : extract_frames (Demo.clip 1 1000 1) "frames" 1 (disk w)
               = (write_file "frames/frame_00000.jpg" (Jpeg [0]) Demo.blank_disk,
                  Ok (Demo.table 1))) by reflexivity.
  assert (Ho : open_all (Demo.table 1)
                 (write_file "frames/frame_00000.jpg" (Jpeg [0]) Demo.blank_disk)
               = Ok [[0]]) by reflexivity.
  assert (He : @encode_images Demo.failing [[0]] = Raise ProviderError) by reflexivity.
  pose proof (build_failure_keeps_index (B:=Demo.failing) _ _ _ _ _ _ _ _ Hx Ho He) as Hb.
  unfold built. rewrite Hb. repeat split.
Defined.

(** C2, as stated, fails: an engine holding two frames rebuilds from a
    one-frame clip while the encoder is down; the build raises, the index
    still has its two vectors, and the table now has one record. *)
Lemma build_failure_replaces_table :
  let w := {| engine := Demo.engine_with [Demo.axis 0; Demo.axis 1] 2;
              disk := Demo.blank_disk |} in
  let built := @build_index Demo.failing (Demo.clip 1 1000 1) "frames" 1 w in
  snd built = Raise ProviderError
  /\ length (frame_data (engine w)) = 2%nat
  /\ length (frame_data (engine (fst built))) = 1%nat
  /\ frame_data (engine (fst built)) <> frame_data (engine w)
  /\ option_map ntotal (index (engine (fst built))) = Some 2.
Proof.
  cbv zeta. split; [reflexivity|]. split; [reflexivity|]. split; [reflexivity|].
  split; [|reflexivity].
  intros Heq. apply (f_equal length) in Heq. vm_compute in Heq. discriminate.
Qed.

(** * The persistence layer *)

Section Persistence.

Lemma artifact_paths_differ path : metadata_path path <> index_path path.
Proof.
  unfold metadata_path, index_path.
  induction path as [|c path IH]; [discriminate|].
  cbn. intros Heq. injection Heq as Heq. by apply IH.
Qed.

Lemma dict_get_frame_data (fd : list FrameRecord) :
  dict_get [("frame_data"%string, fd)] "frame_data" = Ok fd.
Proof. reflexivity. Qed.

(** What [save] does when both writes go through. *)
Lemma save_ok_inv path w w1 :
  save path w = (w1, Ok tt) ->
  exists ix,
    index (engine w) = Some ix
    /\ engine w1 = engine w
    /\ disk w1 = write_file (index_path path) (FaissIndex ix)
                   (write_file (metadata_path path)
                      (Pickle [("frame_data"%string, frame_data (engine w))]) (disk w)).
Proof.
  unfold save, mbind, M_bind, get_self, on_disk, pickle_dump_to, write_index.
  destruct (writable (disk w) (metadata_path path)); cbn; [|discriminate].
  destruct (writable (disk w) (index_path path)); cbn; [|discriminate].
  destruct (index (engine w)) as [ix|]; cbn; [|discriminate].
  intros Heq. injection Heq as <-. exists ix. done.
Qed.

(** [save] returns when there is an index and both paths can be
    written. *)
Lemma save_returns path w ix :
  index (engine w) = Some ix ->
  writable (disk w) (metadata_path path) = true ->
  writable (disk w) (index_path path) = true ->
  exists w1, save path w = (w1, Ok tt).
Proof.
  intros Hix Hmeta Hidx.
  unfold save, mbind, M_bind, get_self, on_disk, pickle_dump_to, write_index.
  rewrite Hmeta. cbn. rewrite Hidx, Hix. cbn. eexists. reflexivity.
Qed.

End Persistence.

(** C9, as amended.  When the engine holds an index and both artifact
    paths can be written, [save] returns, and a [load] from the same
    location, by this engine or by a fresh one, returns and holds the
    table and the index that were saved, so the same vector count; a
    query with the same text and [top_k] has the same outcome before the
    save and after the load. *)
Theorem save_load_round_trip `{B : Backend} (path : string) (w : World)
    (ix : Index) (loader : Engine) :
  index (engine w) = Some ix ->
  writable (disk w) (metadata_path path) = true ->
  writable (disk w) (index_path path) = true ->
  exists w1 w2,
    save path w = (w1, Ok tt)
    /\ load path {| engine := loader; disk := disk w1 |} = (w2, Ok tt)
    /\ frame_data (engine w2) = frame_data (engine w)
    /\ index (engine w2) = index (engine w)
    /\ option_map ntotal (index (engine w2)) = option_map ntotal (index (engine w))
    /\ forall query top_k,
         search (engine w2) query top_k = search (engine w) query top_k.
Proof.
  intros Hix Hmeta Hidx.
  destruct (save_returns path w ix Hix Hmeta Hidx) as [w1 Hsave].
  exists w1. pose proof Hsave as Hinv.
  apply save_ok_inv in Hinv as (ix' & Hix' & _ & Hdisk).
  unfold load, mbind, M_bind, on_disk, modify_self, lift, pickle_load_from, read_index.
  cbn. rewrite Hdisk. unfold write_file. cbn.
  rewrite lookup_insert_ne by (apply not_eq_sym, artifact_paths_differ).
  rewrite lookup_insert_eq. cbn. rewrite lookup_insert_eq. cbn.
  eexists. split; [exact Hsave|]. split; [reflexivity|]. cbn. rewrite Hix'.
  repeat split. intros query top_k. unfold search, query_hits. cbn. by rewrite Hix'.
Qed.

Lemma save_load_round_trip_witness :
  let w := {| engine := Demo.engine_with [Demo.axis 0; Demo.axis 1] 2;
              disk := Demo.blank_disk |} in
  exists w1 w2,
    save "video_index" w = (w1, Ok tt)
    /\ load "video_index" {| engine := init; disk := disk w1 |} = (w2, Ok tt)
    /\ frame_data (engine w2) = Demo.table 2
    /\ index (engine w2) = Some {| dim := 512; xb := [Demo.axis 0; Demo.axis 1] |}.
Proof.
  intros w.
  assert (Hix : index (engine w) = Some {| dim := 512; xb := [Demo.axis 0; Demo.axis 1] |})
    by reflexivity.
  assert (Hm : writable (disk w) (metadata_path "video_index") = true) by reflexivity.
  assert (Hi : writable (disk w) (index_path "video_index") = true) by reflexivity.
  destruct (save_load_round_trip (B:=Demo.flat) "video_index" w _ init Hix Hm Hi)
    as (w1 & w2 & Hsave & Hload & Hfd & Hix2 & _).
  exists w1, w2. split; [exact Hsave|]. split; [exact Hload|].
  split; [exact Hfd|exact Hix2].
Defined.

(** C9, as stated, fails on an engine that holds no index, and on a
    location that cannot be written: on the fresh engine [save] raises
    and the [load] that follows raises too; so they do for an engine that
    holds an index when the metadata path cannot be opened. *)
Lemma round_trip_fails_without_index :
  let fresh := {| engine := init; disk := Demo.blank_disk |} in
  let locked :=
    {| engine := Demo.engine_with [Demo.axis 0] 1;
       disk := Demo.read_only_at (metadata_path "video_index") ∅ |} in
  (index (engine fresh) = None
   /\ is_ok (snd (save "video_index" fresh)) = false
   /\ is_ok (snd (load "video_index"
                    {| engine := init; disk := disk (fst (save "video_index" fresh)) |}))
      = false)
  /\ (snd (save "video_index" locked) = Raise PermissionError
      /\ snd (load "video_index"
                {| engine := init; disk := disk (fst (save "video_index" locked)) |})
         = Raise FileNotFoundError).
Proof.
  cbv zeta. split.
  - split; [reflexivity|]. split; vm_compute; reflexivity.
  - split; vm_compute; reflexivity.
Qed.




(** C1, as amended.  [load] succeeds exactly when both artifacts can be
    read, and then installs the table and the index it read, whatever
    their sizes: it raises when the metadata file is missing, is not a
    pickle or lacks the key, or when the index file is missing or is not
    an index, and it never compares the vector count with the length of
    the table. *)
Theorem load_outcome (path : string) (w : World) :
  match data ← pickle_load_from (metadata_path path) (disk w); dict_get data "frame_data",
        read_index (index_path path) (disk w) with
  | Ok fd, Ok ix =>
      load path w
      = ({| engine := {| index := Some ix; frame_data := fd;
                         embedding_dim := embedding_dim (engine w) |};
            disk := disk w |}, Ok tt)
  | _, _ => is_ok (snd (load path w)) = false
  end.
Proof.
  unfold load, mbind, M_bind, result_bind, on_disk, modify_self, lift.
  destruct (pickle_load_from (metadata_path path) (disk w)) as [data|e]; cbn.
  - destruct (dict_get data "frame_data") as [fd|e];
      destruct (read_index (index_path path) (disk w)) as [ix|e']; cbn; done.
  - destruct (read_index (index_path path) (disk w)); done.
Qed.

(** C1, as stated, fails: a metadata artifact of 10 records beside an
    index artifact of 9 vectors is loaded without complaint. *)
Lemma load_accepts_count_mismatch :
  let dk :=
    write_file (index_path "video_index")
      (FaissIndex {| dim := 512; xb := repeat (Demo.axis 0) 9 |})
      (write_file (metadata_path "video_index")
         (Pickle [("frame_data"%string, Demo.table 10)]) Demo.blank_disk) in
  let loaded := load "video_index" {| engine := init; disk := dk |} in
  snd loaded = Ok tt
  /\ length (frame_data (engine (fst loaded))) = 10%nat
  /\ option_map ntotal (index (engine (fst loaded))) = Some 9.
Proof.
  cbv zeta. split; [reflexivity|]. split; vm_compute; reflexivity.
Qed.

(** * Further properties of the frame sampler *)

Section SamplerMore.

Lemma mod_opp_zero (a k : Z) : (a mod (- k) =? 0) = (a mod k =? 0).
Proof.
  destruct (Z.eq_dec k 0) as [->|Hk]; [done|].
  apply eq_true_iff_eq. rewrite !Z.eqb_eq.
  rewrite !Z.mod_divide by lia. apply Z.divide_opp_l.
Qed.

Lemma read_loop_opp out k st : forall fc sc acc dk,
  read_loop out (- k) st fc sc acc dk = read_loop out k st fc sc acc dk.
Proof.
  induction st as [|f st IH]; intros fc sc acc dk; [done|].
  cbn [read_loop]. unfold Py.mod_.
  replace (- k =? 0) with (k =? 0)
    by (destruct (Z.eqb_spec k 0), (Z.eqb_spec (- k) 0); lia || done).
  destruct (k =? 0); [done|]. rewrite mod_opp_zero.
  destruct (fc mod k =? 0); apply IH.
Qed.

Lemma int_div_opp (x : Q) (y : Z) :
  Py.int (x / inject_Z (- y)) = - Py.int (x / inject_Z y).
Proof.
  destruct x as [n d]. unfold Py.int, Qdiv, Qmult, Qinv, inject_Z.
  destruct y as [|p|p];
    [|change (- Z.pos p) with (Z.neg p)|change (- Z.neg p) with (Z.pos p)];
    cbn -[Z.quot Z.mul]; rewrite ?Z.mul_0_r; try done.
  - rewrite Z.mul_1_r. replace (n * Z.neg 1) with (- n) by lia.
    apply Z.quot_opp_l. lia.
  - rewrite Z.mul_1_r. replace (n * Z.neg 1) with (- n) by lia.
    rewrite Z.quot_opp_l by lia. lia.
Qed.

Lemma ceil_div_step (a k : Z) : 0 < k ->
  (a + 1 + k - 1) / k = (a + k - 1) / k + (if decide (a mod k = 0) then 1 else 0).
Proof.
  intros Hk. pose proof (Z.div_mod a k ltac:(lia)) as Hdm.
  pose proof (Z.mod_pos_bound a k Hk) as Hb.
  destruct (decide (a mod k = 0)) as [Hz|Hnz].
  - rewrite <- (Z.div_unique (a + 1 + k - 1) k (a / k + 1) 0) by lia.
    rewrite <- (Z.div_unique (a + k - 1) k (a / k) (k - 1)) by lia. lia.
  - rewrite <- (Z.div_unique (a + 1 + k - 1) k (a / k + 1) (a mod k)) by lia.
    rewrite <- (Z.div_unique (a + k - 1) k (a / k + 1) (a mod k - 1)) by lia. lia.
Qed.

(** How many of the positions [a, a+1, ...] of a list are multiples of
    [k]. *)
Lemma count_multiples {A} (k : Z) (l : list A) : 0 < k -> forall a,
  Z.of_nat (length (filter (fun p => p.1 mod k = 0) (enumerate_from a l)))
  = (a + Z.of_nat (length l) + k - 1) / k - (a + k - 1) / k.
Proof.
  intros Hk. induction l as [|x l IH]; intros a.
  - cbn. rewrite Z.add_0_r. lia.
  - cbn [enumerate_from]. rewrite filter_cons. cbn [fst length].
    pose proof (ceil_div_step a k Hk) as Hs.
    replace (a + Z.of_nat (S (length l)) + k - 1)
      with (a + 1 + Z.of_nat (length l) + k - 1) by lia.
    destruct (decide (a mod k = 0)); cbn [length]; rewrite ?Nat2Z.inj_succ, IH; lia.
Qed.

Lemma records_from_length out n l : length (records_from out n l) = length l.
Proof. unfold records_from. by rewrite length_map, enumerate_from_length. Qed.

Lemma zeros_decode (k : nat) (s : string) :
  option_map N.of_uint (NilEmpty.uint_of_string (Py.zeros k +:+ s))
  = option_map N.of_uint (NilEmpty.uint_of_string s).
Proof.
  induction k as [|k IH]; [done|].
  change (Py.zeros (S k) +:+ s) with (String "0" (Py.zeros k +:+ s)).
  cbn [NilEmpty.uint_of_string]. rewrite <- IH.
  destruct (NilEmpty.uint_of_string (Py.zeros k +:+ s)); done.
Qed.

(** The number can be read back from its [:05d] rendering. *)
Lemma format_05d_decode (z : Z) : 0 <= z ->
  option_map N.of_uint (NilEmpty.uint_of_string (Py.format_05d z)) = Some (Z.to_N z).
Proof.
  intros Hz. unfold Py.format_05d.
  destruct (Z.ltb_spec z 0) as [?|_]; [lia|].
  rewrite zeros_decode, NilEmpty.usu. cbn [option_map].
  rewrite DecimalN.Unsigned.of_to. f_equal. lia.
Qed.

Lemma format_05d_inj (i j : Z) :
  0 <= i -> 0 <= j -> Py.format_05d i = Py.format_05d j -> i = j.
Proof.
  intros Hi Hj Heq.
  pose proof (format_05d_decode i Hi) as Di. rewrite Heq in Di.
  rewrite (format_05d_decode j Hj) in Di. injection Di as Di. lia.
Qed.

Lemma list_ascii_of_append (s t : string) :
  list_ascii_of_string (s +:+ t) = list_ascii_of_string s ++ list_ascii_of_string t.
Proof.
  induction s as [|c s IH]; [done|].
  change (String c s +:+ t) with (String c (s +:+ t)). cbn. f_equal. exact IH.
Qed.

Lemma append_inv_tail (s1 s2 t : string) : s1 +:+ t = s2 +:+ t -> s1 = s2.
Proof.
  intros Heq. apply (f_equal list_ascii_of_string) in Heq.
  rewrite !list_ascii_of_append in Heq. apply app_inv_tail in Heq.
  rewrite <- (string_of_list_ascii_of_string s1), <- (string_of_list_ascii_of_string s2).
  by rewrite Heq.
Qed.

Lemma path_join_inj (a b1 b2 : string) :
  Py.path_join a b1 = Py.path_join a b2 -> b1 = b2.
Proof.
  unfold Py.path_join. destruct (Py.last_char a) as [c|]; [|done].
  destruct (Ascii.eqb c "/"); intros Heq.
  - by apply String.app_inj in Heq.
  - apply String.app_inj in Heq. by apply (String.app_inj "/") in Heq.
Qed.

Lemma frame_path_inj (out : string) (i j : Z) :
  0 <= i -> 0 <= j ->
  Py.path_join out (frame_name i) = Py.path_join out (frame_name j) -> i = j.
Proof.
  intros Hi Hj Heq. apply path_join_inj in Heq. unfold frame_name in Heq.
  apply (String.app_inj "frame_") in Heq. apply append_inv_tail in Heq.
  by apply format_05d_inj.
Qed.

(** What a returning call of [extract_frames] returned. *)
Lemma extract_frames_ok_inv cap out fps dk dk' frames :
  extract_frames cap out fps dk = (dk', Ok frames) ->
  exists interval,
    frame_interval (CAP_PROP_FPS cap) fps = Ok interval
    /\ frames = records_from out 0 (retained interval (stream cap)).
Proof.
  unfold extract_frames. intros Hx.
  destruct (frame_interval (CAP_PROP_FPS cap) fps) as [k|e]; [|discriminate].
  exists k. split; [done|].
  destruct (Z.eq_dec k 0) as [->|Hk].
  - destruct (stream cap) as [|f st]; [|discriminate]. by injection Hx as _ <-.
  - pose proof (read_loop_spec out k (stream cap) Hk 0 0 [] dk) as Hs.
    rewrite Hx in Hs. cbn in Hs. by injection Hs as ->.
Qed.

Lemma records_from_path out n l :
  map frame_path (records_from out n l)
  = map (fun i => Py.path_join out (frame_name i)) (seqZ n (Z.of_nat (length l))).
Proof. unfold records_from. rewrite <- enumerate_from_fst, !map_map. done. Qed.

Local Abbreviation stored out dk sc :=
  (fun (r : FrameRecord) (px : Image) =>
     (0 <= frame_index r < sc)
     /\ frame_path r = Py.path_join out (frame_name (frame_index r))
     /\ files dk !! frame_path r = Some (Jpeg px)).

(** The loop keeps every image it wrote: later writes go to other
    paths. *)
Lemma read_loop_files out k st : forall fc sc acc dk dk' frames pxs,
  0 <= sc ->
  (forall p, writable dk p = true) ->
  Forall2 (stored out dk sc) acc pxs ->
  read_loop out k st fc sc acc dk = (dk', Ok frames) ->
  exists sc',
    Forall2 (stored out dk' sc') frames
      (pxs ++ map (fun p => pixels p.2)
                  (filter (fun p => p.1 mod k = 0) (enumerate_from fc st))).
Proof.
  induction st as [|f st IH]; intros fc sc acc dk dk' frames pxs Hsc Hw Hacc Hrun.
  - injection Hrun as <- <-. exists sc. by rewrite app_nil_r.
  - cbn [read_loop] in Hrun. unfold Py.mod_ in Hrun.
    destruct (k =? 0); [discriminate|].
    cbn [enumerate_from]. rewrite filter_cons. cbn [fst].
    destruct (Z.eqb_spec (fc mod k) 0) as [Hm|Hm].
    + rewrite decide_True by done. cbn [map snd].
      replace (pxs ++ pixels f :: map (fun p => pixels p.2)
                 (filter (fun p => p.1 mod k = 0) (enumerate_from (fc + 1) st)))
        with ((pxs ++ [pixels f]) ++ map (fun p => pixels p.2)
                 (filter (fun p => p.1 mod k = 0) (enumerate_from (fc + 1) st)))
        by (by rewrite <- app_assoc).
      eapply (IH _ (sc + 1)); [lia| | |exact Hrun].
      * intros p. unfold imwrite. rewrite Hw. cbn. apply Hw.
      * unfold imwrite. rewrite Hw. apply Forall2_app.
        -- eapply Forall2_impl; [exact Hacc|].
           intros r px (Hr & Hp & Hf). split; [lia|]. split; [done|].
           cbn. rewrite lookup_insert_ne; [done|].
           rewrite Hp. intros Heq. apply frame_path_inj in Heq; lia.
        -- constructor; [|constructor]. cbn. split; [lia|]. split; [done|].
           apply lookup_insert_eq.
    + rewrite decide_False by done. eapply IH; [exact Hsc|exact Hw|exact Hacc|exact Hrun].
Qed.

Lemma open_all_stored frames pxs dk (R : FrameRecord -> Image -> Prop) :
  (forall r px, R r px -> files dk !! frame_path r = Some (Jpeg px)) ->
  Forall2 R frames pxs -> open_all frames dk = Ok pxs.
Proof.
  intros HR HF. induction HF as [|r px frames pxs Hr _ IH]; [done|].
  cbn. unfold image_open. rewrite (HR _ _ Hr). cbn. rewrite IH. done.
Qed.

End SamplerMore.

(** X1.  With a positive sampling interval [k], the sampler returns
    [ceil(n / k)] frames out of the [n] the decoder delivers. *)
Theorem sampled_frame_count (cap : VideoCapture) (output_dir : string) (fps : Z)
    (dk : Disk) (interval : Z) :
  frame_interval (CAP_PROP_FPS cap) fps = Ok interval ->
  0 < interval ->
  exists frames,
    snd (extract_frames cap output_dir fps dk) = Ok frames
    /\ Z.of_nat (length frames)
       = (Z.of_nat (length (stream cap)) + interval - 1) / interval.
Proof.
  intros Hi Hk. unfold extract_frames. rewrite Hi.
  rewrite read_loop_spec by lia. eexists. split; [reflexivity|].
  cbn [app]. rewrite records_from_length, (count_multiples interval _ Hk 0).
  rewrite (Z.div_small (0 + interval - 1)) by lia. rewrite Z.sub_0_r. f_equal; lia.
Qed.

(** Seven frames at 30 fps sampled at 10 fps: interval 3, three frames. *)
Lemma sampled_frame_count_witness :
  exists frames,
    snd (extract_frames (Demo.clip 30 33 7) "frames" 10 Demo.blank_disk) = Ok frames
    /\ Z.of_nat (length frames) = 3.
Proof.
  assert (Hi : frame_interval (CAP_PROP_FPS (Demo.clip 30 33 7)) 10 = Ok 3) by reflexivity.
  assert (Hk : 0 < 3) by lia.
  destruct (sampled_frame_count (Demo.clip 30 33 7) "frames" 10 Demo.blank_disk 3 Hi Hk)
    as (frames & Hx & Hn).
  exists frames. split; [exact Hx|]. rewrite Hn. reflexivity.
Defined.

(** X2.  A negative [fps] is not refused: the sampler does with [-fps]
    exactly what it does with [fps], on the frames and on the disk. *)
Theorem negative_fps_samples_like_positive (cap : VideoCapture) (output_dir : string)
    (fps : Z) (dk : Disk) :
  extract_frames cap output_dir (- fps) dk = extract_frames cap output_dir fps dk.
Proof.
  unfold extract_frames, frame_interval, Py.truediv.
  replace (- fps =? 0) with (fps =? 0)
    by (destruct (Z.eqb_spec fps 0), (Z.eqb_spec (- fps) 0); lia || done).
  destruct (fps =? 0); [done|]. rewrite int_div_opp. apply read_loop_opp.
Qed.

(** X3.  Whenever the sampler returns, the image paths of the records it
    returns are pairwise distinct: no frame overwrites another. *)
Theorem sampled_paths_distinct (cap : VideoCapture) (output_dir : string) (fps : Z)
    (dk dk' : Disk) (frames : list FrameRecord) :
  extract_frames cap output_dir fps dk = (dk', Ok frames) ->
  NoDup (map frame_path frames).
Proof.
  intros Hx. apply extract_frames_ok_inv in Hx as (k & _ & ->).
  rewrite records_from_path.
  apply (NoDup_fmap_2_strong (fun i => Py.path_join output_dir (frame_name i))).
  - intros i j Hi%elem_of_seqZ Hj%elem_of_seqZ Heq.
    apply frame_path_inj in Heq; lia.
  - apply NoDup_seqZ.
Qed.

Lemma sampled_paths_distinct_witness :
  NoDup (map frame_path (Demo.table 3)).
Proof.
  assert (Hx : extract_frames (Demo.clip 1 1000 3) "frames" 1 Demo.blank_disk
               = (fst (extract_frames (Demo.clip 1 1000 3) "frames" 1 Demo.blank_disk),
                  Ok (Demo.table 3))) by reflexivity.
  exact (sampled_paths_distinct _ _ _ _ _ _ Hx).
Defined.

(** X4.  On a disk where every path can be written, when the sampler has
    returned, the file at every record's [frame_path] is the JPEG written
    from that record's own frame, no later frame having overwritten it,
    and [create_embeddings] opens one image per record without raising. *)
Theorem sampled_images_on_disk (cap : VideoCapture) (output_dir : string) (fps : Z)
    (dk dk' : Disk) (frames : list FrameRecord) (interval : Z) :
  (forall p, writable dk p = true) ->
  frame_interval (CAP_PROP_FPS cap) fps = Ok interval ->
  extract_frames cap output_dir fps dk = (dk', Ok frames) ->
  Forall2 (fun r p => files dk' !! frame_path r = Some (Jpeg (pixels p.2)))
    frames (retained interval (stream cap))
  /\ exists images,
       open_all frames dk' = Ok images /\ length images = length frames.
Proof.
  intros Hw Hi Hx. unfold extract_frames in Hx. rewrite Hi in Hx.
  destruct (read_loop_files output_dir interval (stream cap) 0 0 [] dk dk' frames []
              ltac:(lia) Hw ltac:(constructor) Hx) as (sc' & HF).
  cbn [app] in HF. split.
  - change (map (fun p : Z * DecodedFrame => pixels p.2)
              (filter (fun p => p.1 mod interval = 0) (enumerate_from 0 (stream cap))))
      with ((fun p : Z * DecodedFrame => pixels p.2) <$> retained interval (stream cap))
      in HF.
    apply Forall2_fmap_r in HF.
    eapply Forall2_impl; [exact HF|]. cbn. tauto.
  - eexists. split.
    + eapply open_all_stored; [|exact HF]. cbn. tauto.
    + symmetry. eapply Forall2_length, HF.
Qed.

Lemma sampled_images_on_disk_witness :
  let dk' := fst (extract_frames (Demo.clip 1 1000 3) "frames" 1 Demo.blank_disk) in
  files dk' !! "frames/frame_00002.jpg" = Some (Jpeg [2])
  /\ exists images,
       open_all (Demo.table 3) dk' = Ok images /\ length images = 3%nat.
Proof.
  intros dk'.
  assert (Hw : forall p, writable Demo.blank_disk p = true) by (intros p; reflexivity).
  assert (Hi : frame_interval (CAP_PROP_FPS (Demo.clip 1 1000 3)) 1 = Ok 1) by reflexivity.
  assert (Hx : extract_frames (Demo.clip 1 1000 3) "frames" 1 Demo.blank_disk
               = (dk', Ok (Demo.table 3))) by reflexivity.
  destruct (sampled_images_on_disk _ _ _ _ _ _ _ Hw Hi Hx) as [_ Ho].
  split; [reflexivity|exact Ho].
Defined.

(** * Further properties of the index builder *)

(** X5.  A build that goes through starts from an empty index: the
    engine ends with exactly the normalised vectors of this build, in
    the engine's dimension, and with the sampled table; nothing of the
    index it held before is kept. *)
Theorem build_replaces_state `{B : Backend} (cap : VideoCapture) (output_dir : string)
    (fps : Z) (w : World) (dk' : Disk) (frames : list FrameRecord)
    (images : list Image) (embeddings normalized : list vec) :
  extract_frames cap output_dir fps (disk w) = (dk', Ok frames) ->
  open_all frames dk' = Ok images ->
  encode_images images = Ok embeddings ->
  normalize_L2 embeddings = Ok normalized ->
  forallb (fun row => Z.of_nat (length row) =? embedding_dim (engine w)) normalized
  = true ->
  build_index cap output_dir fps w
  = ({| engine := {| index := Some {| dim := embedding_dim (engine w);
                                      xb := normalized |};
                     frame_data := frames;
                     embedding_dim := embedding_dim (engine w) |};
        disk := dk' |},
     Ok tt).
Proof.
  intros Hx Ho He Hn Hd.
  unfold build_index, mbind, M_bind, on_disk, modify_self, get_self, create_embeddings,
    add_to_self_index, lift, index_add.
  rewrite Hx. cbn. rewrite Ho. cbn. rewrite He, Hn. cbn.
  unfold mbind, M_bind, get_self, modify_self. cbn. rewrite Hd. reflexivity.
Qed.

(** An engine holding two vectors rebuilds from a three-frame clip. *)
Lemma build_replaces_state_witness :
  let w := {| engine := Demo.engine_with [Demo.axis 7; Demo.axis 8] 2;
              disk := Demo.blank_disk |} in
  let built := @build_index Demo.flat (Demo.clip 1 1000 3) "frames" 1 w in
  snd built = Ok tt
  /\ index (engine (fst built))
     = Some {| dim := 512; xb := [Demo.axis 0; Demo.axis 1; Demo.axis 2] |}
  /\ frame_data (engine (fst built)) = Demo.table 3.
Proof.
  intros w built.
  assert (Hx : extract_frames (Demo.clip 1 1000 3) "frames" 1 (disk w)
               = (fst (extract_frames (Demo.clip 1 1000 3) "frames" 1 (disk w)),
                  Ok (Demo.table 3))) by reflexivity.
  assert (Ho : open_all (Demo.table 3)
                 (fst (extract_frames (Demo.clip 1 1000 3) "frames" 1 (disk w)))
               = Ok [[0]; [1]; [2]]) by reflexivity.
  assert (He : @encode_images Demo.flat [[0]; [1]; [2]]
               = Ok [Demo.axis 0; Demo.axis 1; Demo.axis 2]) by reflexivity.
  assert (Hn : @normalize_L2 Demo.flat [Demo.axis 0; Demo.axis 1; Demo.axis 2]
               = Ok [Demo.axis 0; Demo.axis 1; Demo.axis 2]) by (vm_compute; reflexivity).
  assert (Hd : forallb (fun row => Z.of_nat (length row) =? embedding_dim (engine w))
                 [Demo.axis 0; Demo.axis 1; Demo.axis 2] = true) by (vm_compute; reflexivity).
  pose proof (build_replaces_state (B:=Demo.flat) _ _ _ _ _ _ _ _ _ Hx Ho He Hn Hd) as Hb.
  unfold built. rewrite Hb. repeat split.
Defined.

(** X6.  When the model's vectors do not have the engine's dimension,
    [index.add] raises after the engine's index was already replaced:
    the build raises [AssertionError] and leaves the engine with an
    empty index and the new table. *)
Theorem build_dimension_mismatch `{B : Backend} (cap : VideoCapture)
    (output_dir : string) (fps : Z) (w : World) (dk' : Disk)
    (frames : list FrameRecord) (images : list Image)
    (embeddings normalized : list vec) :
  extract_frames cap output_dir fps (disk w) = (dk', Ok frames) ->
  open_all frames dk' = Ok images ->
  encode_images images = Ok embeddings ->
  normalize_L2 embeddings = Ok normalized ->
  forallb (fun row => Z.of_nat (length row) =? embedding_dim (engine w)) normalized
  = false ->
  build_index cap output_dir fps w
  = ({| engine := {| index := Some {| dim := embedding_dim (engine w); xb := [] |};
                     frame_data := frames;
                     embedding_dim := embedding_dim (engine w) |};
        disk := dk' |},
     Raise AssertionError).
Proof.
  intros Hx Ho He Hn Hd.
  unfold build_index, mbind, M_bind, on_disk, modify_self, get_self, create_embeddings,
    add_to_self_index, lift, index_add.
  rewrite Hx. cbn. rewrite Ho. cbn. rewrite He, Hn. cbn.
  unfold mbind, M_bind, get_self, modify_self. cbn. rewrite Hd. reflexivity.
Qed.

(** The same clip with a model of dimension 512 and an engine whose
    [embedding_dim] is 768. *)
Lemma build_dimension_mismatch_witness :
  let w := {| engine := {| index := Some {| dim := 768; xb := [] |};
                           frame_data := [];
                           embedding_dim := 768 |};
              disk := Demo.blank_disk |} in
  let built := @build_index Demo.flat (Demo.clip 1 1000 3) "frames" 1 w in
  snd built = Raise AssertionError
  /\ option_map ntotal (index (engine (fst built))) = Some 0
  /\ frame_data (engine (fst built)) = Demo.table 3.
Proof.
  intros w built.
  assert (Hx : extract_frames (Demo.clip 1 1000 3) "frames" 1 (disk w)
               = (fst (extract_frames (Demo.clip 1 1000 3) "frames" 1 (disk w)),
                  Ok (Demo.table 3))) by reflexivity.
  assert (Ho : open_all (Demo.table 3)
                 (fst (extract_frames (Demo.clip 1 1000 3) "frames" 1 (disk w)))
               = Ok [[0]; [1]; [2]]) by reflexivity.
  assert (He : @encode_images Demo.flat [[0]; [1]; [2]]
               = Ok [Demo.axis 0; Demo.axis 1; Demo.axis 2]) by reflexivity.
  assert (Hn : @normalize_L2 Demo.flat [Demo.axis 0; Demo.axis 1; Demo.axis 2]
               = Ok [Demo.axis 0; Demo.axis 1; Demo.axis 2]) by (vm_compute; reflexivity).
  assert (Hd : forallb (fun row => Z.of_nat (length row) =? embedding_dim (engine w))
                 [Demo.axis 0; Demo.axis 1; Demo.axis 2] = false) by (vm_compute; reflexivity).
  pose proof (build_dimension_mismatch (B:=Demo.flat) _ _ _ _ _ _ _ _ _ Hx Ho He Hn Hd) as Hb.
  unfold built. rewrite Hb. repeat split.
Defined.

(** * Further properties of the query engine *)

Section QueryMore.

Context `{B : Backend}.

Lemma getitem_member {A} (l : list A) (i : Z) (x : A) :
  Py.getitem l i = Ok x -> x ∈ l.
Proof.
  unfold Py.getitem. destruct (_ && _); [|discriminate].
  destruct (l !! _) as [y|] eqn:Hl; [|discriminate].
  intros [= <-]. by eapply list_elem_of_lookup_2.
Qed.

Lemma getitem_in_range {A} (l : list A) (i : Z) :
  0 <= i < Z.of_nat (length l) -> exists x, Py.getitem l i = Ok x.
Proof.
  intros Hi. unfold Py.getitem.
  destruct (Z.ltb_spec i 0) as [?|_]; [lia|].
  destruct (Z.leb_spec 0 i); [|lia].
  destruct (Z.ltb_spec i (Z.of_nat (length l))); [|lia]. cbn.
  destruct (l !! Z.to_nat i) as [x|] eqn:Hl; [by exists x|].
  apply lookup_ge_None in Hl. lia.
Qed.

(** The join does not raise when no label is negative. *)
Lemma join_loop_total fd hits : forall i acc,
  forallb (fun h => 0 <=? h.2) hits = true ->
  exists results, join_loop fd i hits acc = Ok results.
Proof.
  induction hits as [|[sc idx] hits IH]; intros i acc Hpos; [by eexists|].
  cbn [forallb snd] in Hpos. apply andb_true_iff in Hpos as [Hidx Hpos].
  apply Z.leb_le in Hidx. cbn [join_loop].
  destruct (Z.ltb_spec idx (Z.of_nat (length fd))); [|by apply IH].
  destruct (getitem_in_range fd idx ltac:(lia)) as [fr ->]. by apply IH.
Qed.

End QueryMore.

(** X7.  When the index answers no negative label, [search] returns,
    whatever the sizes of index and table: the hits whose label is beyond
    the table are left out, and each result carries the score of a kept
    hit and the fields of the record at that hit's row. *)
Theorem search_joins_valid_labels `{B : Backend} (self : Engine) (query : string)
    (top_k : Z) (hits : list (Q * Z)) :
  query_hits self query top_k = Ok hits ->
  forallb (fun h => 0 <=? h.2) hits = true ->
  exists results,
    search self query top_k = Ok results
    /\ Forall2
         (fun h r =>
            score r = h.1
            /\ exists fr,
                 frame_data self !! Z.to_nat h.2 = Some fr
                 /\ res_frame_index r = frame_index fr
                 /\ res_frame_path r = frame_path fr
                 /\ res_timestamp_ms r = timestamp_ms fr
                 /\ res_timestamp_sec r = timestamp_sec fr)
         (filter (fun h => h.2 < Z.of_nat (length (frame_data self))) hits)
         results.
Proof.
  intros Hq Hpos.
  destruct (join_loop_total (frame_data self) hits 0 [] Hpos) as [results Hj].
  assert (Hs : search self query top_k = Ok results)
    by (unfold search; rewrite Hq; exact Hj).
  exists results. split; [exact Hs|].
  pose proof (search_inv _ _ _ _ _ Hq Hs) as HF.
  pose proof (kept_hits_nonneg (frame_data self) 0 hits Hpos) as Hk.
  rewrite <- (kept_hits_snd _ 0).
  change (map snd (kept_hits (frame_data self) 0 hits))
    with (snd <$> kept_hits (frame_data self) 0 hits).
  apply Forall2_fmap_l.
  set (l := kept_hits (frame_data self) 0 hits) in *. clearbody l. clear Hj Hs.
  revert Hk. induction HF as [|p r l rs (fr & Hget & ->) _ IH]; intros Hk; [constructor|].
  apply Forall_cons in Hk as [Hp Hk]. constructor; [|by apply IH].
  cbn. split; [done|]. exists fr. split; [by apply getitem_nonneg|done].
Qed.

(** A table of one frame under an index of two rows. *)
Lemma search_joins_valid_labels_witness :
  exists results,
    @search Demo.flat (Demo.engine_with [Demo.axis 2; Demo.axis 1] 1) "a" 2 = Ok results
    /\ length results = 1%nat.
Proof.
  assert (Hq : @query_hits Demo.flat (Demo.engine_with [Demo.axis 2; Demo.axis 1] 1) "a" 2
               = Ok [(1%Q, 1); (0%Q, 0)]) by (vm_compute; reflexivity).
  assert (Hpos : forallb (fun h : Q * Z => 0 <=? h.2) [(1%Q, 1); (0%Q, 0)] = true)
    by reflexivity.
  destruct (search_joins_valid_labels (B:=Demo.flat) _ _ _ _ Hq Hpos)
    as (results & Hs & HF).
  exists results. split; [exact Hs|].
  apply Forall2_length in HF. rewrite <- HF. reflexivity.
Defined.

(** X8.  A search that returns gives at most one result per hit of the
    index, and the frame fields of every result are those of one record
    of the table. *)
Theorem search_results_from_table `{B : Backend} (self : Engine) (query : string)
    (top_k : Z) (hits : list (Q * Z)) (results : list SearchResult) :
  query_hits self query top_k = Ok hits ->
  search self query top_k = Ok results ->
  (length results <= length hits)%nat
  /\ Forall
       (fun r =>
          exists fr,
            fr ∈ frame_data self
            /\ res_frame_index r = frame_index fr
            /\ res_frame_path r = frame_path fr
            /\ res_timestamp_ms r = timestamp_ms fr
            /\ res_timestamp_sec r = timestamp_sec fr)
       results.
Proof.
  intros Hq Hs. pose proof (search_inv _ _ _ _ _ Hq Hs) as HF. split.
  - rewrite <- (Forall2_length _ _ _ HF). unfold kept_hits.
    etransitivity; [apply length_filter|]. by rewrite enumerate_from_length.
  - eapply Forall2_Forall_r; [exact HF|]. apply Forall_forall.
    intros p _ r (fr & Hget & ->). exists fr.
    split; [by eapply getitem_member|done].
Qed.

Lemma search_results_from_table_witness :
  exists results,
    @search Demo.flat (Demo.engine_with [Demo.axis 1] 1) "a" 2 = Ok results
    /\ (length results <= 2)%nat.
Proof.
  assert (Hq : @query_hits Demo.flat (Demo.engine_with [Demo.axis 1] 1) "a" 2
               = Ok [(1%Q, 0); (Demo.FLT_LOWEST, -1)]) by (vm_compute; reflexivity).
  assert (Hs : @search Demo.flat (Demo.engine_with [Demo.axis 1] 1) "a" 2
               = Ok [make_result 0 1 (make_record "frames" {| pos_msec := 0; pixels := [0] |} 0);
                     make_result 1 Demo.FLT_LOWEST
                       (make_record "frames" {| pos_msec := 0; pixels := [0] |} 0)])
    by (vm_compute; reflexivity).
  eexists. split; [exact Hs|].
  exact (proj1 (search_results_from_table (B:=Demo.flat) _ _ _ _ _ Hq Hs)).
Defined.

(** * Further properties of the persistence layer *)

Section PersistenceMore.

(** Where [save] can leave the state: as it was, with the metadata
    file written, or with both files written. *)
Lemma save_cases path w :
  exists r,
    save path w = (w, r)
    \/ (exists f,
          save path w
          = ({| engine := engine w;
                disk := write_file (metadata_path path) f (disk w) |}, r))
    \/ (exists f g,
          save path w
          = ({| engine := engine w;
                disk := write_file (index_path path) g
                          (write_file (metadata_path path) f (disk w)) |}, r)).
Proof.
  unfold save, mbind, M_bind, get_self, on_disk, pickle_dump_to, write_index.
  destruct w as [e dk]. cbn.
  destruct (writable dk (metadata_path path)); cbn; [|by eexists; left].
  destruct (writable dk (index_path path)); cbn.
  - destruct (index e); cbn; eexists; right; right; by eexists _, _.
  - eexists; right; left; by eexists.
Qed.

(** What a [load] finds after both artifacts were written. *)
Lemma load_written path loader dk fd ix :
  load path
    {| engine := loader;
       disk := write_file (index_path path) (FaissIndex ix)
                 (write_file (metadata_path path)
                    (Pickle [("frame_data"%string, fd)]) dk) |}
  = ({| engine := {| index := Some ix; frame_data := fd;
                     embedding_dim := embedding_dim loader |};
        disk := write_file (index_path path) (FaissIndex ix)
                  (write_file (metadata_path path)
                     (Pickle [("frame_data"%string, fd)]) dk) |},
     Ok tt).
Proof.
  unfold load, mbind, M_bind, on_disk, modify_self, lift, pickle_load_from, read_index.
  unfold write_file. cbn.
  rewrite lookup_insert_ne by (apply not_eq_sym, artifact_paths_differ).
  rewrite lookup_insert_eq. cbn. rewrite lookup_insert_eq. reflexivity.
Qed.

Lemma search_same_fields `{B : Backend} (e1 e2 : Engine) query top_k :
  index e1 = index e2 -> frame_data e1 = frame_data e2 ->
  search e1 query top_k = search e2 query top_k.
Proof. intros Hi Hf. unfold search, query_hits. by rewrite Hi, Hf. Qed.

Lemma write_file_twice p f dk :
  write_file p f (write_file p f dk) = write_file p f dk.
Proof. unfold write_file. cbn. f_equal. apply insert_insert_eq. Qed.

Lemma write_both_twice path f g dk :
  write_file (index_path path) g
    (write_file (metadata_path path) f
       (write_file (index_path path) g (write_file (metadata_path path) f dk)))
  = write_file (index_path path) g (write_file (metadata_path path) f dk).
Proof.
  unfold write_file. cbn. f_equal.
  rewrite (insert_insert_ne _ (metadata_path path) (index_path path))
    by apply artifact_paths_differ.
  by rewrite !insert_insert_eq.
Qed.

End PersistenceMore.

(** X9.  When the metadata artifact can be read and the index artifact
    cannot, [load] raises after it has replaced the table: the engine
    keeps its index and holds the table of the artifact. *)
Theorem load_failure_replaces_table (path : string) (w : World)
    (data : list (string * list FrameRecord)) (fd : list FrameRecord) (e : exn) :
  pickle_load_from (metadata_path path) (disk w) = Ok data ->
  dict_get data "frame_data" = Ok fd ->
  read_index (index_path path) (disk w) = Raise e ->
  load path w
  = ({| engine := {| index := index (engine w); frame_data := fd;
                     embedding_dim := embedding_dim (engine w) |};
        disk := disk w |},
     Raise e).
Proof.
  intros Hm Hd Hi. unfold load, mbind, M_bind, on_disk, modify_self, lift.
  rewrite Hm. cbn. rewrite Hd. cbn. rewrite Hi. reflexivity.
Qed.

(** A metadata artifact of three records with no index artifact. *)
Lemma load_failure_replaces_table_witness :
  let dk := write_file (metadata_path "video_index")
              (Pickle [("frame_data"%string, Demo.table 3)]) Demo.blank_disk in
  let loaded := load "video_index" {| engine := init; disk := dk |} in
  snd loaded = Raise RuntimeError
  /\ frame_data (engine (fst loaded)) = Demo.table 3
  /\ index (engine (fst loaded)) = None.
Proof.
  intros dk loaded.
  assert (Hm : pickle_load_from (metadata_path "video_index") dk
               = Ok [("frame_data"%string, Demo.table 3)]) by reflexivity.
  assert (Hd : dict_get [("frame_data"%string, Demo.table 3)] "frame_data"
               = Ok (Demo.table 3)) by reflexivity.
  assert (Hi : read_index (index_path "video_index") dk = Raise RuntimeError)
    by reflexivity.
  pose proof (load_failure_replaces_table "video_index" {| engine := init; disk := dk |}
                _ _ _ Hm Hd Hi) as Hl.
  unfold loaded. rewrite Hl. repeat split.
Defined.

(** X10.  [save] changes nothing but its two artifacts: the engine is as
    before, and so is every file at another path, whether [save] returns
    or raises. *)
Theorem save_touches_only_artifacts (path : string) (w : World) (p : string) :
  p <> metadata_path path ->
  p <> index_path path ->
  engine (fst (save path w)) = engine w
  /\ files (disk (fst (save path w))) !! p = files (disk w) !! p.
Proof.
  intros Hm Hi.
  destruct (save_cases path w) as [r [->|[(f & ->)|(f & g & ->)]]]; cbn.
  - done.
  - split; [done|]. by rewrite lookup_insert_ne.
  - split; [done|]. by rewrite !lookup_insert_ne.
Qed.

(** The image of a frame outlives a save. *)
Lemma save_touches_only_artifacts_witness :
  let w := {| engine := Demo.engine_with [Demo.axis 0] 1;
              disk := write_file "frames/frame_00000.jpg" (Jpeg [0]) Demo.blank_disk |} in
  files (disk (fst (save "video_index" w))) !! "frames/frame_00000.jpg"
  = Some (Jpeg [0]).
Proof.
  intros w.
  assert (Hm : "frames/frame_00000.jpg"%string <> metadata_path "video_index")
    by discriminate.
  assert (Hi : "frames/frame_00000.jpg"%string <> index_path "video_index")
    by discriminate.
  destruct (save_touches_only_artifacts "video_index" w _ Hm Hi) as [_ Hf].
  rewrite Hf. reflexivity.
Defined.

(** X12.  Saving twice in a row is saving once: the second [save] ends as
    the first did and leaves the state the first left. *)
Theorem save_twice (path : string) (w : World) :
  save path (fst (save path w)) = save path w.
Proof.
  unfold save, mbind, M_bind, get_self, on_disk, pickle_dump_to, write_index.
  destruct w as [e dk]. cbn.
  destruct (writable dk (metadata_path path)) eqn:Hm; cbn; [|by rewrite Hm].
  destruct (writable dk (index_path path)) eqn:Hi; cbn.
  - destruct (index e) as [ix|] eqn:Hix; cbn;
      rewrite Hm; cbn; rewrite Hi; cbn; rewrite Hix; cbn;
      by rewrite write_both_twice.
  - rewrite Hm. cbn. rewrite Hi. cbn. by rewrite write_file_twice.
Qed.

(** X13.  A [save] that cannot open the index artifact for writing, over
    the artifacts of an earlier save, raises and leaves a pair that loads:
    the table of the engine that failed to save beside the index of the
    earlier save. *)
Theorem failed_save_leaves_stale_index (path : string) (w : World) (old : Index)
    (loader : Engine) :
  writable (disk w) (metadata_path path) = true ->
  writable (disk w) (index_path path) = false ->
  files (disk w) !! index_path path = Some (FaissIndex old) ->
  snd (save path w) = Raise RuntimeError
  /\ load path {| engine := loader; disk := disk (fst (save path w)) |}
     = ({| engine := {| index := Some old; frame_data := frame_data (engine w);
                        embedding_dim := embedding_dim loader |};
           disk := disk (fst (save path w)) |},
        Ok tt).
Proof.
  intros Hm Hi Hold.
  unfold save, mbind, M_bind, get_self, on_disk, pickle_dump_to, write_index.
  destruct w as [e dk]. cbn in *. rewrite Hm. cbn. rewrite Hi. cbn. split; [done|].
  unfold load, mbind, M_bind, on_disk, modify_self, lift, pickle_load_from, read_index.
  cbn. rewrite lookup_insert_eq. cbn.
  rewrite lookup_insert_ne by apply artifact_paths_differ. rewrite Hold. reflexivity.
Qed.

Lemma failed_save_leaves_stale_index_witness :
  let old := {| dim := 512; xb := [Demo.axis 0; Demo.axis 1] |} in
  let dk := Demo.read_only_at (index_path "video_index")
              (<[index_path "video_index" := FaissIndex old]> ∅) in
  let w := {| engine := Demo.engine_with [Demo.axis 5] 1; disk := dk |} in
  snd (save "video_index" w) = Raise RuntimeError
  /\ fst (load "video_index" {| engine := init; disk := disk (fst (save "video_index" w)) |})
     = {| engine := {| index := Some old; frame_data := Demo.table 1;
                       embedding_dim := 512 |};
          disk := disk (fst (save "video_index" w)) |}.
Proof.
  intros old dk w.
  assert (Hm : writable (disk w) (metadata_path "video_index") = true) by reflexivity.
  assert (Hi : writable (disk w) (index_path "video_index") = false) by reflexivity.
  assert (Hold : files (disk w) !! index_path "video_index" = Some (FaissIndex old))
    by reflexivity.
  destruct (failed_save_leaves_stale_index "video_index" w old init Hm Hi Hold)
    as [Hs Hl].
  split; [exact Hs|]. rewrite Hl. reflexivity.
Defined.

(** * Frames that cannot be written *)

Section ReadOnly.



End ReadOnly.

(** * The HTTP front end *)

Section ServerFacts.

Context `{B : Backend}.

(** What a returning build did. *)
Lemma build_index_ok_inv cap out fps w w1 :
  build_index cap out fps w = (w1, Ok tt) ->
  exists dk' frames ix,
    extract_frames cap out fps (disk w) = (dk', Ok frames)
    /\ w1 = {| engine := {| index := Some ix; frame_data := frames;
                            embedding_dim := embedding_dim (engine w) |};
               disk := dk' |}.
Proof.
  unfold build_index, mbind, M_bind, on_disk, modify_self, get_self, create_embeddings,
    add_to_self_index, lift, index_add.
  destruct (extract_frames cap out fps (disk w)) as [dk' [frames|e]]; cbn; [|discriminate].
  destruct (open_all frames dk') as [images|e]; cbn; [|discriminate].
  destruct (encode_images images) as [embs|e]; cbn; [|discriminate].
  destruct (normalize_L2 embs) as [normalized|e]; cbn; [|discriminate].
  unfold mbind, M_bind, get_self, modify_self. cbn.
  match goal with
  | |- context [forallb ?f normalized] => destruct (forallb f normalized)
  end; cbn; [|discriminate].
  intros [= <-]. by eexists _, _, _.
Qed.

(** What a request to [/index] that answered with a body did. *)
Lemma index_video_ok_inv filename fps s s' body :
  Server.index_video filename fps s = (s', Server.Respond body) ->
  exists w1 w2,
    Server.path_exists (Server.os_path_join Server.VIDEO_DIR filename) s = true
    /\ build_index
         (Server.VideoCapture_open (Server.os_path_join Server.VIDEO_DIR filename) s)
         Server.FRAMES_DIR fps (Server.app s) = (w1, Ok tt)
    /\ save Server.INDEX_PATH w1 = (w2, Ok tt)
    /\ s' = Server.with_app w2 s
    /\ body = {| Server.index_status := "indexed";
                 Server.frames := Z.of_nat (length (frame_data (engine w2)));
                 Server.video := filename |}.
Proof.
  unfold Server.index_video.
  destruct (Server.path_exists _ s); cbn; [|discriminate].
  destruct (build_index _ _ _ _) as [w1 [[]|e]] eqn:Hb; [|discriminate].
  destruct (save Server.INDEX_PATH w1) as [w2 [[]|e]] eqn:Hs; [|discriminate].
  intros [= <- <-]. by exists w1, w2.
Qed.

Lemma not_slash_join (a b : string) (c : ascii) :
  c <> "/"%char -> Server.os_path_join a (String c b) = Py.path_join a (String c b).
Proof.
  intros Hc. unfold Server.os_path_join.
  destruct c as [[] [] [] [] [] [] [] []]; try done.
Qed.

Lemma frame_name_join (i : Z) :
  Server.os_path_join Server.FRAMES_DIR (frame_name i)
  = Py.path_join Server.FRAMES_DIR (frame_name i).
Proof. apply not_slash_join. discriminate. Qed.

Lemma path_exists_file p s f :
  files (disk (Server.app s)) !! p = Some f -> Server.path_exists p s = true.
Proof.
  intros Hf. unfold Server.path_exists. rewrite Hf.
  rewrite bool_decide_eq_true_2 by eauto. done.
Qed.

End ServerFacts.

(** X15.  An upload that is accepted can be fetched and indexed under the
    name it was given: [/video/{filename}] answers with the stored path,
    a capture opened on that path delivers the uploaded video, and the
    engine is as before. *)
Theorem upload_then_get_video (filename : string) (content : VideoCapture)
    (s s' : Server.State) (body : Server.Uploaded) :
  Server.upload_video filename content s = (s', Server.Respond body) ->
  Server.uploaded_path body = Server.os_path_join Server.VIDEO_DIR filename
  /\ Server.get_video filename s'
     = Server.Respond {| Server.response_path := Server.uploaded_path body;
                         Server.media_type := "video/mp4" |}
  /\ Server.VideoCapture_open (Server.uploaded_path body) s' = content
  /\ engine (Server.app s') = engine (Server.app s).
Proof.
  unfold Server.upload_video.
  destruct (negb _); [discriminate|].
  destruct (writable _ _); [|discriminate].
  intros [= <- <-]. cbn. split; [done|]. split; [|split; [|done]].
  - unfold Server.get_video, Server.path_exists, Server.store_video. cbn.
    rewrite lookup_insert_eq.
    rewrite (bool_decide_eq_true_2 (is_Some (Some content))) by eauto.
    by rewrite orb_true_r.
  - unfold Server.VideoCapture_open, Server.store_video. cbn.
    by rewrite lookup_delete_eq, lookup_insert_eq.
Qed.

Lemma upload_then_get_video_witness :
  let s := Server.start Demo.blank_disk ∅ in
  let s' := fst (Server.upload_video "a.mp4" (Demo.clip 1 1000 3) s) in
  Server.get_video "a.mp4" s'
  = Server.Respond {| Server.response_path := "uploads/a.mp4";
                      Server.media_type := "video/mp4" |}
  /\ Server.VideoCapture_open "uploads/a.mp4" s' = Demo.clip 1 1000 3.
Proof.
  intros s s'.
  assert (Hu : Server.upload_video "a.mp4" (Demo.clip 1 1000 3) s
               = (s', Server.Respond {| Server.uploaded_filename := "a.mp4";
                                        Server.uploaded_path := "uploads/a.mp4" |}))
    by reflexivity.
  destruct (upload_then_get_video _ _ _ _ _ Hu) as (_ & Hg & Hc & _).
  split; [exact Hg|exact Hc].
Defined.

(** X16.  The upload handler joins the client's file name to the upload
    directory without checking it: an accepted name that starts with [/]
    is stored at that absolute path, not under [uploads]. *)
Theorem upload_absolute_filename (rest : string) (content : VideoCapture)
    (s s' : Server.State) (body : Server.Uploaded) :
  Server.upload_video (String "/" rest) content s = (s', Server.Respond body) ->
  Server.uploaded_path body = String "/" rest
  /\ Server.videos s' !! String "/" rest = Some content.
Proof.
  unfold Server.upload_video.
  destruct (negb _); [discriminate|].
  destruct (writable _ _); [|discriminate].
  intros [= <- <-]. cbn. split; [done|]. apply lookup_insert_eq.
Qed.

Lemma upload_absolute_filename_witness :
  let s := Server.start Demo.blank_disk ∅ in
  let done := Server.upload_video "/srv/x.mp4" (Demo.clip 1 1000 1) s in
  Server.videos (fst done) !! "/srv/x.mp4" = Some (Demo.clip 1 1000 1)
  /\ Server.videos (fst done) !! "uploads/srv/x.mp4" = None.
Proof.
  intros s done.
  assert (Hu : Server.upload_video (String "/" "srv/x.mp4") (Demo.clip 1 1000 1) s
               = (fst done, Server.Respond {| Server.uploaded_filename := "/srv/x.mp4";
                                              Server.uploaded_path := "/srv/x.mp4" |}))
    by reflexivity.
  destruct (upload_absolute_filename _ _ _ _ _ Hu) as [_ Hv].
  split; [exact Hv|reflexivity].
Defined.

(** X17.  When [/index] answers with a body, the frame count it reports
    is the length of the engine's table, [/health] reports an index, and
    the two artifacts under [video_index] hold that table and that
    index. *)
Theorem index_video_saves_what_it_reports `{B : Backend} (filename : string) (fps : Z)
    (s s' : Server.State) (body : Server.Indexed) :
  Server.index_video filename fps s = (s', Server.Respond body) ->
  Server.frames body = Z.of_nat (length (frame_data (engine (Server.app s'))))
  /\ Server.indexed (Server.health s') = true
  /\ exists ix,
       index (engine (Server.app s')) = Some ix
       /\ files (disk (Server.app s')) !! metadata_path Server.INDEX_PATH
          = Some (Pickle [("frame_data"%string, frame_data (engine (Server.app s')))])
       /\ files (disk (Server.app s')) !! index_path Server.INDEX_PATH
          = Some (FaissIndex ix).
Proof.
  intros Hi. apply index_video_ok_inv in Hi as (w1 & w2 & _ & _ & Hs & -> & ->).
  apply save_ok_inv in Hs as (ix & Hix & He & Hd).
  cbn. split; [done|]. unfold Server.health. cbn. rewrite He, Hix. split; [done|].
  exists ix. split; [done|]. rewrite Hd. unfold write_file. cbn. split.
  - rewrite lookup_insert_ne by (apply not_eq_sym, artifact_paths_differ).
    apply lookup_insert_eq.
  - apply lookup_insert_eq.
Qed.

Lemma index_video_saves_what_it_reports_witness :
  let s := fst (Server.upload_video "a.mp4" (Demo.clip 1 1000 3)
                  (Server.start Demo.blank_disk ∅)) in
  let done := @Server.index_video Demo.flat "a.mp4" 1 s in
  Server.frames
    {| Server.index_status := "indexed"; Server.frames := 3; Server.video := "a.mp4" |}
  = Z.of_nat (length (frame_data (engine (Server.app (fst done)))))
  /\ Server.indexed (Server.health (fst done)) = true.
Proof.
  intros s done.
  assert (Hi : @Server.index_video Demo.flat "a.mp4" 1 s
               = (fst done,
                  Server.Respond {| Server.index_status := "indexed";
                                    Server.frames := 3;
                                    Server.video := "a.mp4" |}))
    by (vm_compute; reflexivity).
  destruct (index_video_saves_what_it_reports (B:=Demo.flat) _ _ _ _ _ Hi)
    as (Hf & Hh & _).
  split; [exact Hf|exact Hh].
Defined.

(** X18.  After [/index] answered with a body, a server restarted on the
    same disk answers every [/search] as the server that indexed does:
    the lazy [load] restores what [save] wrote. *)
Theorem search_after_restart `{B : Backend} (filename : string) (fps : Z)
    (s s' : Server.State) (body : Server.Indexed) (q : string) (top_k : Z) :
  Server.index_video filename fps s = (s', Server.Respond body) ->
  snd (Server.search q top_k
         (Server.start (disk (Server.app s')) (Server.videos s')))
  = snd (Server.search q top_k s').
Proof.
  intros Hi. apply index_video_ok_inv in Hi as (w1 & w2 & _ & _ & Hs & -> & _).
  apply save_ok_inv in Hs as (ix & Hix & He & Hd).
  unfold Server.search, Server.start. cbn -[search load]. rewrite He, Hix, Hd.
  rewrite load_written.
  rewrite (search_same_fields
             {| index := Some ix; frame_data := frame_data (engine w1);
                embedding_dim := embedding_dim init |} (engine w1) q top_k)
    by done.
  rewrite ?He. by destruct (search (engine w1) q top_k).
Qed.

Lemma search_after_restart_witness :
  let s := fst (Server.upload_video "a.mp4" (Demo.clip 1 1000 3)
                  (Server.start Demo.blank_disk ∅)) in
  let s' := fst (@Server.index_video Demo.flat "a.mp4" 1 s) in
  snd (@Server.search Demo.flat "a" 2
         (Server.start (disk (Server.app s')) (Server.videos s')))
  = snd (@Server.search Demo.flat "a" 2 s').
Proof.
  intros s s'.
  assert (Hi : @Server.index_video Demo.flat "a.mp4" 1 s
               = (s', Server.Respond {| Server.index_status := "indexed";
                                        Server.frames := 3;
                                        Server.video := "a.mp4" |}))
    by (vm_compute; reflexivity).
  exact (search_after_restart (B:=Demo.flat) _ _ _ _ _ "a" 2 Hi).
Defined.

(** X19.  [/search] on an engine without an index, over a readable
    metadata artifact and an unreadable index artifact, answers 400 and
    has changed the engine: the table is now the one of the artifact, and
    there is still no index. *)
Theorem search_failed_load_replaces_table `{B : Backend} (q : string) (top_k : Z)
    (s : Server.State) (data : list (string * list FrameRecord))
    (fd : list FrameRecord) (e : exn) :
  index (engine (Server.app s)) = None ->
  pickle_load_from (metadata_path Server.INDEX_PATH) (disk (Server.app s)) = Ok data ->
  dict_get data "frame_data" = Ok fd ->
  read_index (index_path Server.INDEX_PATH) (disk (Server.app s)) = Raise e ->
  Server.search q top_k s
  = (Server.with_app
       {| engine := {| index := None; frame_data := fd;
                       embedding_dim := embedding_dim (engine (Server.app s)) |};
          disk := disk (Server.app s) |} s,
     Server.HTTPException 400
       (Server.Text "No video indexed. Upload and index a video first.")).
Proof.
  intros Hix Hm Hd Hi. unfold Server.search. rewrite Hix.
  unfold load, mbind, M_bind, on_disk, modify_self, lift.
  rewrite Hm. cbn. rewrite Hd. cbn. rewrite Hi. cbn.
  unfold set_frame_data. by rewrite Hix.
Qed.

Lemma search_failed_load_replaces_table_witness :
  let dk := write_file (metadata_path "video_index")
              (Pickle [("frame_data"%string, Demo.table 3)]) Demo.blank_disk in
  let answered := @Server.search Demo.flat "a" 2 (Server.start dk ∅) in
  snd answered
  = Server.HTTPException 400
      (Server.Text "No video indexed. Upload and index a video first.")
  /\ frame_data (engine (Server.app (fst answered))) = Demo.table 3.
Proof.
  intros dk answered.
  assert (Hix : index (engine (Server.app (Server.start dk ∅))) = None) by reflexivity.
  assert (Hm : pickle_load_from (metadata_path Server.INDEX_PATH)
                 (disk (Server.app (Server.start dk ∅)))
               = Ok [("frame_data"%string, Demo.table 3)]) by reflexivity.
  assert (Hd : dict_get [("frame_data"%string, Demo.table 3)] "frame_data"
               = Ok (Demo.table 3)) by reflexivity.
  assert (Hi : read_index (index_path Server.INDEX_PATH)
                 (disk (Server.app (Server.start dk ∅))) = Raise RuntimeError)
    by reflexivity.
  pose proof (search_failed_load_replaces_table (B:=Demo.flat) "a" 2 _ _ _ _
                Hix Hm Hd Hi) as Hs.
  unfold answered. rewrite Hs. split; reflexivity.
Defined.

(** X20.  After [/index] answered with a body, on a disk where every path
    could be written, [/frame/{frame_index}] serves the image of every
    record of the table, at the path the record names. *)
Theorem get_frame_serves_sampled_frames `{B : Backend} (filename : string) (fps : Z)
    (s s' : Server.State) (body : Server.Indexed) :
  (forall p, writable (disk (Server.app s)) p = true) ->
  Server.index_video filename fps s = (s', Server.Respond body) ->
  Forall
    (fun r =>
       Server.get_frame (frame_index r) s'
       = Server.Respond {| Server.response_path := frame_path r;
                           Server.media_type := "image/jpeg" |})
    (frame_data (engine (Server.app s'))).
Proof.
  intros Hw Hi. apply index_video_ok_inv in Hi as (w1 & w2 & _ & Hb & Hs & -> & _).
  apply build_index_ok_inv in Hb as (dk' & frames & ix & Hx & ->).
  apply save_ok_inv in Hs as (ix' & _ & He & Hd). cbn in He, Hd.
  unfold extract_frames in Hx.
  destruct (frame_interval _ fps) as [k|e]; [|discriminate].
  destruct (read_loop_files Server.FRAMES_DIR k _ 0 0 [] _ dk' frames []
              ltac:(lia) Hw ltac:(constructor) Hx) as (sc' & HF).
  cbn. rewrite He. cbn.
  eapply Forall2_Forall_l; [exact HF|]. apply Forall_forall.
  intros px _ r (_ & Hp & Hf).
  unfold Server.get_frame. rewrite frame_name_join, <- Hp.
  rewrite (path_exists_file (frame_path r) (Server.with_app w2 s) (Jpeg px)); [done|].
  cbn. rewrite Hd. unfold write_file. cbn.
  rewrite !lookup_insert_ne; [done| |].
  - rewrite Hp. discriminate.
  - rewrite Hp. discriminate.
Qed.

Lemma get_frame_serves_sampled_frames_witness :
  let s := fst (Server.upload_video "a.mp4" (Demo.clip 1 1000 3)
                  (Server.start Demo.blank_disk ∅)) in
  let s' := fst (@Server.index_video Demo.flat "a.mp4" 1 s) in
  Forall
    (fun r =>
       Server.get_frame (frame_index r) s'
       = Server.Respond {| Server.response_path := frame_path r;
                           Server.media_type := "image/jpeg" |})
    (frame_data (engine (Server.app s'))).
Proof.
  intros s s'.
  assert (Hw : forall p, writable (disk (Server.app s)) p = true)
    by (intros p; reflexivity).
  assert (Hi : @Server.index_video Demo.flat "a.mp4" 1 s
               = (s', Server.Respond {| Server.index_status := "indexed";
                                        Server.frames := 3;
                                        Server.video := "a.mp4" |}))
    by (vm_compute; reflexivity).
  exact (get_frame_serves_sampled_frames (B:=Demo.flat) _ _ _ _ _ Hw Hi).
Defined.

(** X21.  [/index] with [fps = 0] on a path that exists answers 500 with
    the text of a [ZeroDivisionError], and changes nothing: the division
    is the first thing the build does. *)
Theorem index_video_zero_fps `{B : Backend} (filename : string) (s : Server.State) :
  Server.path_exists (Server.os_path_join Server.VIDEO_DIR filename) s = true ->
  Server.index_video filename 0 s
  = (s, Server.HTTPException 500 (Server.Str ZeroDivisionError)).
Proof.
  intros Hex. unfold Server.index_video. rewrite Hex. cbn.
  unfold build_index, mbind, M_bind, on_disk, extract_frames, frame_interval, Py.truediv.
  cbn. by destruct s as [[e dk] vs].
Qed.

Lemma index_video_zero_fps_witness :
  let s := fst (Server.upload_video "a.mp4" (Demo.clip 1 1000 3)
                  (Server.start Demo.blank_disk ∅)) in
  @Server.index_video Demo.flat "a.mp4" 0 s
  = (s, Server.HTTPException 500 (Server.Str ZeroDivisionError)).
Proof.
  intros s.
  assert (Hex : Server.path_exists (Server.os_path_join Server.VIDEO_DIR "a.mp4") s = true)
    by reflexivity.
  exact (index_video_zero_fps (B:=Demo.flat) "a.mp4" s Hex).
Defined.


